(** * simple-commands-mcp: daemon lifecycle manager and tool dispatcher

    A shallow embedding of [src/processManager.ts] (class [ProcessManager])
    and of the tool executor (class [ToolExecutor]), with the properties of
    the specification proved about it.

    Modelling choices.
    - A JavaScript [number] that holds a count, a PID, an exit code or a
      time stamp is a [Z].
    - [Map<string, RunningProcess>] is a [gmap] from names to references;
      the [RunningProcess] objects live in a store, because the closures of
      [startDaemon] keep a reference to their object while the map entry
      may be removed, or replaced by a later run, in the meantime.
    - The event loop is explicit: [setTimeout] puts a task in a queue that
      is ordered by due time, and [advance] lets time pass.
    - What the host decides (whether [spawn] or [kill] throws, what [exec]
      yields, when a child writes or exits) is an argument of the operation
      it influences.
    - A JavaScript string is the [string] of its UTF-8 bytes, and a chunk
      of output is well-formed UTF-8, so that [data.toString()] loses
      nothing. A number is an integer that JavaScript holds exactly and
      prints in decimal (below 1e21 in magnitude).
    - Calls of the [logger] methods that exist ([Logger.call]) write to a
      log file only and are left out; the call of [logger.warning] in
      [runCommand] is not among them and is kept.
    - [getRunningDaemons] and [cleanup] are left out: no property below is
      about them, and [cleanup] runs when the server process ends. *)

From Stdlib Require Import Ascii String ZArith Lia.
From stdpp Require Import base gmap strings list pretty.

Open Scope string_scope.
Open Scope list_scope.
Open Scope stdpp_scope.
Open Scope Z_scope.

(** ** JavaScript built-ins used by the sources *)

Module JS.

(** The line feed, ['\n']. *)
Definition nl : string := String "010"%char "".

(** Truthiness of a string: every string but the empty one. *)
Definition truthy (s : string) : bool := negb (String.eqb s "").

(** [a || b] on strings. *)
Definition or_else (a b : string) : string := if truthy a then a else b.

(** [s.endsWith(suffix)]: some tail of [s] is [suffix]. *)
Fixpoint endsWith (s suffix : string) : bool :=
  if String.eqb s suffix then true
  else match s with
       | EmptyString => false
       | String _ s' => endsWith s' suffix
       end.

(** Dropping the first [n] characters. *)
Fixpoint skip (n : nat) (s : string) : string :=
  match n, s with
  | O, _ => s
  | S n', String _ s' => skip n' s'
  | S _, EmptyString => EmptyString
  end.

(** [s.replace(pattern, replacement)] with a string pattern: only the
    FIRST occurrence of [pattern], scanning from the left, is replaced. *)
Fixpoint replace (s pattern replacement : string) : string :=
  if String.prefix pattern s
  then replacement +:+ skip (String.length pattern) s
  else match s with
       | EmptyString => EmptyString
       | String c s' => String c (replace s' pattern replacement)
       end.

(** [xs.join(sep)]. *)
Definition join (sep : string) (xs : list string) : string :=
  String.concat sep xs.

(** [s.split('\n')]: the pieces between line feeds; never empty. *)
Fixpoint split_nl (s : string) : list string :=
  match s with
  | EmptyString => [EmptyString]
  | String c s' =>
      if Ascii.eqb c "010"%char then EmptyString :: split_nl s'
      else match split_nl s' with
           | piece :: rest => String c piece :: rest
           | [] => [String c EmptyString]
           end
  end.

(** A string of the given bytes. *)
Fixpoint bytes (codes : list nat) : string :=
  match codes with
  | [] => EmptyString
  | c :: codes' => String (ascii_of_nat c) (bytes codes')
  end.

(** The code points that [trim] removes, each in UTF-8: the white space and
    the line terminators of ECMAScript. These are U+0009 to U+000D and
    U+0020, then U+00A0, U+1680, U+2000 to U+200A, U+2028, U+2029, U+202F,
    U+205F, U+3000 and U+FEFF. *)
Definition whiteSpace : list string :=
  List.map bytes
    [ [9]; [10]; [11]; [12]; [13]; [32];
      [194; 160];
      [225; 154; 128];
      [226; 128; 128]; [226; 128; 129]; [226; 128; 130]; [226; 128; 131];
      [226; 128; 132]; [226; 128; 133]; [226; 128; 134]; [226; 128; 135];
      [226; 128; 136]; [226; 128; 137]; [226; 128; 138];
      [226; 128; 168]; [226; 128; 169]; [226; 128; 175];
      [226; 129; 159];
      [227; 128; 128];
      [239; 187; 191] ]%nat.

(** The rest of [s] behind the first string of [ws] that it begins with. *)
Fixpoint dropPrefixOf (ws : list string) (s : string) : option string :=
  match ws with
  | [] => None
  | w :: ws' =>
      if String.prefix w s then Some (skip (String.length w) s)
      else dropPrefixOf ws' s
  end.

(** [s] without one leading white space code point, if it has one. *)
Definition dropSpace (s : string) : option string := dropPrefixOf whiteSpace s.

Fixpoint trimStart_from (fuel : nat) (s : string) : string :=
  match fuel with
  | O => s
  | S fuel' =>
      match dropSpace s with
      | Some rest => trimStart_from fuel' rest
      | None => s
      end
  end.

(** [s.trimStart()]: the length of [s] is fuel enough, a code point being
    at least one byte. *)
Definition trimStart (s : string) : string := trimStart_from (String.length s) s.

(** A string of white space only. *)
Definition whiteOnly (s : string) : bool := String.eqb (trimStart s) "".

(** [s.trimEnd()]: [s] up to where only white space follows. *)
Fixpoint trimEnd (s : string) : string :=
  match s with
  | EmptyString => EmptyString
  | String c s' => if whiteOnly s then EmptyString else String c (trimEnd s')
  end.

(** [s.trim()]. *)
Definition trim (s : string) : string := trimEnd (trimStart s).

(** [xs.slice(start)] with one argument: a negative [start] counts from
    the end, and the index is clamped to the array. *)
Definition slice {A} (start : Z) (xs : list A) : list A :=
  let len := Z.of_nat (length xs) in
  let k := (if start <? 0 then Z.max (len + start) 0 else Z.min start len)%Z in
  drop (Z.to_nat k) xs.

End JS.

(** ** [src/types.ts] *)

Inductive ProcessState : Set := STARTING | RUNNING | STOPPED | FAILED.

Global Instance ProcessState_eq_dec : EqDecision ProcessState.
Proof. solve_decision. Defined.

(** The string value of each member of the enum. *)
Definition ProcessState_value (st : ProcessState) : string :=
  match st with
  | STARTING => "starting"
  | RUNNING => "running"
  | STOPPED => "stopped"
  | FAILED => "failed"
  end.

Record ProcessOutputBuffer : Set := mkBuffer {
  stdout : list string;
  stderr : list string;
  maxLines : nat
}.

(** ** The host: child processes, signals and what [spawn] and [kill] do *)

Inductive Signal : Set := SIGTERM | SIGKILL.

(** The part of Node's [ChildProcess] object that the manager reads or
    changes. [signals] lists the signals that [kill] handed to the
    operating system. A listener is the closure the manager registered,
    given by the [name] it captured. *)
Record ChildProcess : Set := mkChild {
  child_pid : Z;
  killed : bool;
  exitCode : option Z;
  signalCode : option string;
  signals : list Signal;
  exit_listener : option string;
  error_listener : option string
}.

(** [spawn(command, [], {...})] either throws or returns a child. *)
Inductive SpawnOutcome : Set :=
| SpawnThrows (err : string)
| Spawned (child_pid : Z).

(** [child.kill(signal)]: the signal is delivered ([killed] becomes true and
    the call returns true), or there is no such process any more (the call
    returns false), or the call throws. *)
Inductive KillOutcome : Set :=
| KillDelivered
| KillNoProcess
| KillThrows (err : string).

Definition kill (sig : Signal) (o : KillOutcome) (c : ChildProcess)
  : string + (bool * ChildProcess) :=
  match o with
  | KillDelivered =>
      inr (true, mkChild (child_pid c) true (exitCode c) (signalCode c)
                         (signals c ++ [sig]) (exit_listener c) (error_listener c))
  | KillNoProcess => inr (false, c)
  | KillThrows err => inl err
  end.

(** ** [src/processManager.ts] *)

Module ProcessManager.

Record RunningProcess : Set := mkRunning {
  name : string;
  process : ChildProcess;
  pid : Z;
  startTime : Z;
  state : ProcessState;
  outputBuffer : ProcessOutputBuffer
}.

Record ProcessStatus : Set := mkStatus {
  status_name : string;
  status_pid : Z;
  status_state : ProcessState;
  status_startTime : Z;
  uptime : Z;
  recentOutput : list string
}.

(** The [{ success, message }] objects the manager returns. *)
Record Result : Set := mkResult { success : bool; message : string }.

(** References to [RunningProcess] objects. *)
Definition loc : Set := nat.

(** What [setTimeout] was given: the rest of [startDaemon] after its
    [await], or the removal of a name from the map. *)
Inductive Task : Set :=
| ResumeStart (name : string) (l : loc)
| Purge (name : string).

Record Manager : Type := mkManager {
  runningProcesses : gmap string loc;
  store : gmap loc RunningProcess;
  timers : list (Z * Task);
  now : Z
}.

(** The manager as [new ProcessManager()] leaves it, at time [t]. *)
Definition init (t : Z) : Manager :=
  {| runningProcesses := ∅; store := ∅; timers := []; now := t |}.

Definition MAX_OUTPUT_LINES : nat := 1000.

Definition createOutputBuffer : ProcessOutputBuffer :=
  {| stdout := []; stderr := []; maxLines := MAX_OUTPUT_LINES |}.

(** [addToBuffer(buffer, line, maxLines)]: [push], then one [shift] when
    the array has grown beyond [maxLines]. *)
Definition addToBuffer (buffer : list string) (line : string) (maxLines : nat)
  : list string :=
  let pushed := buffer ++ [line] in
  if (maxLines <? length pushed)%nat then tail pushed else pushed.

(** [lines.forEach(line => this.addToBuffer(buffer, line, maxLines))]. *)
Definition pushAll (buffer : list string) (lines : list string) (maxLines : nat)
  : list string :=
  foldl (fun b line => addToBuffer b line maxLines) buffer lines.

(** Field updates of the objects. *)
Definition with_state (st : ProcessState) (p : RunningProcess) : RunningProcess :=
  mkRunning (name p) (process p) (pid p) (startTime p) st (outputBuffer p).

Definition with_process (c : ChildProcess) (p : RunningProcess) : RunningProcess :=
  mkRunning (name p) c (pid p) (startTime p) (state p) (outputBuffer p).

Definition with_buffer (b : ProcessOutputBuffer) (p : RunningProcess) : RunningProcess :=
  mkRunning (name p) (process p) (pid p) (startTime p) (state p) b.

Definition with_store (f : gmap loc RunningProcess -> gmap loc RunningProcess)
  (s : Manager) : Manager :=
  mkManager (runningProcesses s) (f (store s)) (timers s) (now s).

Definition with_map (f : gmap string loc -> gmap string loc) (s : Manager) : Manager :=
  mkManager (f (runningProcesses s)) (store s) (timers s) (now s).

(** [setTimeout(task, delay)]: the queue is kept in due order, a new task
    going behind those that are due at the same time. *)
Fixpoint schedule (due : Z) (t : Task) (q : list (Z * Task)) : list (Z * Task) :=
  match q with
  | [] => [(due, t)]
  | x :: q' => if (x.1 <=? due)%Z then x :: schedule due t q' else (due, t) :: x :: q'
  end.

Definition setTimeout (t : Task) (delay : Z) (s : Manager) : Manager :=
  mkManager (runningProcesses s) (store s) (schedule (now s + delay) t (timers s)) (now s).

(** [this.runningProcesses.get(name)]: the reference and the object. *)
Definition get (name : string) (s : Manager) : option (loc * RunningProcess) :=
  match runningProcesses s !! name with
  | Some l => match store s !! l with
              | Some p => Some (l, p)
              | None => None
              end
  | None => None
  end.

(** What an [async] function has done when it gives back control: it has
    returned, or it waits for the timer that resumes it. *)
Inductive Async (A : Type) : Type :=
| Return (a : A)
| Await (l : loc).
Global Arguments Return {A} a.
Global Arguments Await {A} l.

(** [startDaemon], up to its [await]. *)
Definition startDaemon (name command cwd : string) (sp : SpawnOutcome) (s : Manager)
  : Async Result * Manager :=
  match get name s with
  | Some (_, existing) =>
      (Return {| success := false;
                 message := "Daemon '" +:+ name +:+ "' is already running (PID: "
                            +:+ pretty (pid existing) +:+ ")" |}, s)
  | None =>
      match sp with
      | SpawnThrows err =>
          (Return {| success := false;
                     message := "Failed to start daemon: " +:+ err |}, s)
      | Spawned p =>
          let child := mkChild p false None None [] None None in
          let outputBuffer := createOutputBuffer in
          let runningProcess := mkRunning name child p (now s) STARTING outputBuffer in
          let l : loc := fresh (dom (store s)) in
          (Await l,
           setTimeout (ResumeStart name l) 1000
             (mkManager (<[name := l]> (runningProcesses s))
                        (<[l := runningProcess]> (store s))
                        (timers s) (now s)))
      end
  end.

(** [startDaemon], from its [await] on: [l] is the object that the
    variables [runningProcess], [child] and [outputBuffer] refer to. *)
Definition startDaemon_resume (name : string) (l : loc) (s : Manager)
  : option (Result * Manager) :=
  match store s !! l with
  | None => None
  | Some runningProcess =>
      let child := process runningProcess in
      if killed child || bool_decide (exitCode child <> None) then
        let errorOutput :=
          JS.or_else (JS.join JS.nl (stderr (outputBuffer runningProcess)))
                     "Process exited immediately" in
        Some ({| success := false;
                 message := "Error: Daemon failed to start:" +:+ JS.nl +:+ errorOutput |},
              with_map (delete name) s)
      else
        let child' := mkChild (child_pid child) (killed child) (exitCode child)
                              (signalCode child) (signals child)
                              (Some name) (Some name) in
        Some ({| success := true;
                 message := "Started daemon '" +:+ name +:+ "' (PID: "
                            +:+ pretty (child_pid child) +:+ ")" |},
              with_store (<[l := with_process child' (with_state RUNNING runningProcess)]>) s)
  end.

(** The ['exit'] listener of [startDaemon]. *)
Definition exitHandler (name : string) (code : option Z) (signal : option string)
  (s : Manager) : Manager :=
  match get name s with
  | Some (l, proc) =>
      setTimeout (Purge name) 5000
        (with_store
           (<[l := with_state (if bool_decide (code = Some 0) then STOPPED else FAILED) proc]>)
           s)
  | None => s
  end.

(** The ['error'] listener of [startDaemon]. *)
Definition errorHandler (name : string) (errMessage : string) (s : Manager) : Manager :=
  let s' :=
    match get name s with
    | Some (l, proc) =>
        let b := outputBuffer proc in
        let b' := mkBuffer (stdout b)
                           (addToBuffer (stderr b) ("Error: " +:+ errMessage) (maxLines b))
                           (maxLines b) in
        with_store (<[l := with_buffer b' (with_state FAILED proc)]>) s
    | None => s
    end in
  setTimeout (Purge name) 5000 s'.

(** [data.toString().split('\n').filter(line => line.trim())]. *)
Definition dataLines (data : string) : list string :=
  List.filter (fun line => JS.truthy (JS.trim line)) (JS.split_nl data).

Inductive Stream : Set := Stdout | Stderr.

(** The ['data'] listeners on [child.stdout] and [child.stderr]. *)
Definition dataHandler (st : Stream) (l : loc) (data : string) (s : Manager) : Manager :=
  match store s !! l with
  | None => s
  | Some p =>
      let b := outputBuffer p in
      let b' :=
        match st with
        | Stdout => mkBuffer (pushAll (stdout b) (dataLines data) (maxLines b))
                             (stderr b) (maxLines b)
        | Stderr => mkBuffer (stdout b)
                             (pushAll (stderr b) (dataLines data) (maxLines b))
                             (maxLines b)
        end in
      with_store (<[l := with_buffer b' p]>) s
  end.

(** The child of [l] terminates: Node records [exitCode] and [signalCode]
    on the object, then calls the ['exit'] listener if there is one. *)
Definition childExit (l : loc) (code : option Z) (signal : option string)
  (s : Manager) : Manager :=
  match store s !! l with
  | None => s
  | Some p =>
      let c := process p in
      let c' := mkChild (child_pid c) (killed c) code signal (signals c)
                        (exit_listener c) (error_listener c) in
      let s' := with_store (<[l := with_process c' p]>) s in
      match exit_listener c with
      | Some name => exitHandler name code signal s'
      | None => s'
      end
  end.

(** The child of [l] emits ['error']. The listener runs if [startDaemon]
    has registered it; if not, the event is unhandled and ends the server
    process, which is [None]. *)
Definition childError (l : loc) (errMessage : string) (s : Manager)
  : option Manager :=
  match store s !! l with
  | None => Some s
  | Some p =>
      match error_listener (process p) with
      | Some name => Some (errorHandler name errMessage s)
      | None => None
      end
  end.

(** [stopDaemon]. *)
Definition stopDaemon (name : string) (o : KillOutcome) (s : Manager)
  : Result * Manager :=
  match get name s with
  | None =>
      ({| success := false;
          message := "Daemon '" +:+ name +:+ "' is not running" |}, s)
  | Some (l, running) =>
      match kill SIGTERM o (process running) with
      | inl err =>
          ({| success := false;
              message := "Failed to stop daemon: " +:+ err |}, s)
      | inr (_, child') =>
          ({| success := true;
              message := "Stopped daemon '" +:+ name +:+ "' (PID: "
                         +:+ pretty (pid running) +:+ ")" |},
           with_map (delete name) (with_store (<[l := with_process child' running]>) s))
      end
  end.

(** [isDaemonRunning]. *)
Definition isDaemonRunning (name : string) (s : Manager) : bool :=
  match get name s with
  | Some (_, proc) => bool_decide (state proc = RUNNING)
  | None => false
  end.

(** [getProcessStatus]; [None] is [null]. *)
Definition getProcessStatus (name : string) (s : Manager) : option ProcessStatus :=
  match get name s with
  | None => None
  | Some (_, proc) =>
      let uptime := (now s - startTime proc) `div` 1000 in
      let recentOutput :=
        JS.slice (-10) (stdout (outputBuffer proc)) ++
        List.map (fun line => "[stderr] " +:+ line)
                 (JS.slice (-5) (stderr (outputBuffer proc))) in
      Some (mkStatus (ProcessManager.name proc) (pid proc) (state proc) (startTime proc)
                     uptime recentOutput)
  end.

(** [getProcessLogs(name, lines)]; the default of [lines] is in
    [getProcessLogs_default]. *)
Definition getProcessLogs (name : string) (lines : Z) (s : Manager)
  : option (list string * list string) :=
  match get name s with
  | None => None
  | Some (_, proc) =>
      Some (JS.slice (- lines) (stdout (outputBuffer proc)),
            JS.slice (- lines) (stderr (outputBuffer proc)))
  end.

Definition getProcessLogs_default (name : string) (s : Manager) :=
  getProcessLogs name 50 s.

(** A task of the timer queue runs. The result of a resumed [startDaemon]
    goes to its caller and is not kept here. *)
Definition runTask (t : Task) (s : Manager) : Manager :=
  match t with
  | ResumeStart name l =>
      match startDaemon_resume name l s with
      | Some (_, s') => s'
      | None => s
      end
  | Purge name => with_map (delete name) s
  end.

(** [d] milliseconds pass: the tasks that are due by then run, in queue
    order, and leave the queue. No task sets a timer. *)
Definition advance (d : Z) (s : Manager) : Manager :=
  let t := now s + d in
  let due := List.filter (fun x => (x.1 <=? t)%Z) (timers s) in
  let rest := List.filter (fun x => negb (x.1 <=? t)%Z) (timers s) in
  foldl (fun s' x => runTask x.2 s')
        (mkManager (runningProcesses s) (store s) rest t) due.

End ProcessManager.

(** ** [src/logger.ts] *)

Module Logger.

(** [winston.createLogger] is called without a [levels] option, so the
    logger has one method for each of winston's own levels, and no
    other. *)
Definition levels : list string :=
  ["error"; "warn"; "info"; "http"; "verbose"; "debug"; "silly"].

(** The text of the [TypeError] for a call of something that is not a
    function. *)
Definition notAFunction (callee : string) : string :=
  callee +:+ " is not a function".

(** [logger.<method>(...)]: [None] when the call returns, having written
    to the log file, or the message of the [TypeError] it throws. *)
Definition call (method : string) : option string :=
  if existsb (String.eqb method) levels then None
  else Some (notAFunction ("logger." +:+ method)).

End Logger.

(** ** [src/toolExecutor.ts] *)

Module ToolExecutor.

(** [ToolConfig] of [src/types.ts]; [daemon] is optional. *)
Record ToolConfig : Set := mkToolConfig {
  name : string;
  description : string;
  command : string;
  daemon : option bool
}.

(** The [args] of a call, as far as [executeTool] looks at them: the
    optional number [lines]. *)
Record Args : Set := mkArgs { lines : option Z }.

(** The [{ success, output }] objects the executor returns. *)
Record Result : Set := mkResult { success : bool; output : string }.

(** The value of [error.code] on what [execAsync] rejects with. *)
Inductive ErrorCode : Set :=
| CodeUndefined
| CodeNull
| CodeNumber (n : Z)
| CodeString (s : string).

Record ExecError : Set := mkExecError {
  error_message : string;
  error_stdout : option string;
  error_stderr : option string;
  error_code : ErrorCode
}.

(** [await execAsync(command, {...})] resolves with the two streams or
    rejects with an error. *)
Inductive ExecOutcome : Set :=
| ExecResolves (stdout stderr : string)
| ExecRejects (error : ExecError).

(** What the host does during one call of [executeTool]. *)
Record Host : Type := mkHost {
  spawn : SpawnOutcome;
  killing : KillOutcome;
  exec : ExecOutcome;
  toISOString : Z -> string
}.

(** Truthiness of a property that may be [undefined]. *)
Definition truthy_opt (o : option string) : bool :=
  match o with
  | Some v => JS.truthy v
  | None => false
  end.

(** A value inside a template literal. *)
Definition code_text (c : ErrorCode) : string :=
  match c with
  | CodeUndefined => "undefined"
  | CodeNull => "null"
  | CodeNumber n => pretty n
  | CodeString v => v
  end.

(** How a function ends: with a value, or with an exception of the given
    message. *)
Inductive Completion (A : Type) : Type :=
| Returns (a : A)
| Throws (message : string).
Global Arguments Returns {A} a.
Global Arguments Throws {A} message.

(** The [catch] block of [runCommand] behind its call of
    [logger.warning]. *)
Definition failureResult (error : ExecError) : Result :=
  let output := "" in
  let output :=
    if truthy_opt (error_stdout error)
    then output +:+ default "" (error_stdout error)
    else output in
  let output :=
    if truthy_opt (error_stderr error)
    then output +:+ (if JS.truthy output
                     then JS.nl +:+ default "" (error_stderr error)
                     else default "" (error_stderr error))
    else output in
  let output :=
    match error_code error with
    | CodeUndefined => output
    | c => "Command failed with exit code " +:+ code_text c +:+ ":"
           +:+ JS.nl +:+ output
    end in
  {| success := false;
     output := JS.or_else output
                 ("Failed to run command: " +:+ error_message error) |}.

(** [runCommand]. The [catch] block begins with [logger.warning(...)]; an
    exception there leaves the function. *)
Definition runCommand (command : string) (o : ExecOutcome) : Completion Result :=
  match o with
  | ExecResolves stdout stderr =>
      let output := stdout in
      let output :=
        if JS.truthy stderr
        then output +:+ (if JS.truthy stderr
                         then JS.nl +:+ "Stderr:" +:+ JS.nl +:+ stderr
                         else "")
        else output in
      Returns {| success := true;
                 output := JS.or_else output "Command completed successfully" |}
  | ExecRejects error =>
      match Logger.call "warning" with
      | Some typeError => Throws typeError
      | None => Returns (failureResult error)
      end
  end.

(** The private [getProcessStatus] of the executor. *)
Definition getProcessStatus (toISO : Z -> string) (daemonName : string)
  (s : ProcessManager.Manager) : Result :=
  match ProcessManager.getProcessStatus daemonName s with
  | None =>
      {| success := false;
         output := "Daemon '" +:+ daemonName +:+ "' is not running" |}
  | Some status =>
      let output := "Daemon: " +:+ ProcessManager.status_name status +:+ JS.nl in
      let output := output +:+ "Status: "
                    +:+ ProcessState_value (ProcessManager.status_state status)
                    +:+ JS.nl in
      let output := output +:+ "PID: "
                    +:+ pretty (ProcessManager.status_pid status) +:+ JS.nl in
      let output := output +:+ "Uptime: "
                    +:+ pretty (ProcessManager.uptime status) +:+ " seconds" +:+ JS.nl in
      let output := output +:+ "Started: "
                    +:+ toISO (ProcessManager.status_startTime status) +:+ JS.nl in
      let output :=
        if (0 <? length (ProcessManager.recentOutput status))%nat
        then output +:+ JS.nl +:+ "Recent output:" +:+ JS.nl
             +:+ JS.join JS.nl (ProcessManager.recentOutput status)
        else output in
      {| success := true; output := output |}
  end.

(** The private [getProcessLogs] of the executor. *)
Definition getProcessLogs (daemonName : string) (lines : Z)
  (s : ProcessManager.Manager) : Result :=
  match ProcessManager.getProcessLogs daemonName lines s with
  | None =>
      {| success := false;
         output := "Daemon '" +:+ daemonName +:+ "' is not running or has no logs" |}
  | Some (out, err) =>
      let output := "=== Logs for " +:+ daemonName +:+ " (last " +:+ pretty lines
                    +:+ " lines) ===" +:+ JS.nl +:+ JS.nl in
      let output :=
        if (0 <? length out)%nat
        then output +:+ "--- STDOUT ---" +:+ JS.nl +:+ JS.join JS.nl out
             +:+ JS.nl +:+ JS.nl
        else output in
      let output :=
        if (0 <? length err)%nat
        then output +:+ "--- STDERR ---" +:+ JS.nl +:+ JS.join JS.nl err +:+ JS.nl
        else output in
      let output :=
        if (length out =? 0)%nat && (length err =? 0)%nat
        then output +:+ "No output captured yet."
        else output in
      {| success := true; output := output |}
  end.

(** [args?.lines || 50]: [undefined] and [0] give the default. *)
Definition linesOrDefault (args : option Args) : Z :=
  match args with
  | Some a =>
      match lines a with
      | Some k => if (k =? 0)%Z then 50 else k
      | None => 50
      end
  | None => 50
  end.

Definition ofManagerResult (r : ProcessManager.Result) : Result :=
  {| success := ProcessManager.success r; output := ProcessManager.message r |}.

(** [executeTool], up to the [await] inside [startDaemon] if it gets there;
    [projectRoot] is the field of the executor. Of what its [try] encloses
    only [runCommand] can throw; the [catch] turns that into a result. *)
Definition executeTool (projectRoot : string) (toolConfig : option ToolConfig)
  (toolName : string) (args : option Args) (host : Host)
  (s : ProcessManager.Manager)
  : ProcessManager.Async Result * ProcessManager.Manager :=
  match toolConfig with
  | None =>
      if JS.endsWith toolName "_start" then
        (ProcessManager.Return
           {| success := false;
              output := "Configuration not found for tool: " +:+ toolName |}, s)
      else if JS.endsWith toolName "_status" then
        let daemonName := JS.replace toolName "_status" "" in
        (ProcessManager.Return (getProcessStatus (toISOString host) daemonName s), s)
      else if JS.endsWith toolName "_stop" then
        let daemonName := JS.replace toolName "_stop" "" in
        let '(result, s') := ProcessManager.stopDaemon daemonName (killing host) s in
        (ProcessManager.Return (ofManagerResult result), s')
      else if JS.endsWith toolName "_logs" then
        let daemonName := JS.replace toolName "_logs" "" in
        let lines := linesOrDefault args in
        (ProcessManager.Return (getProcessLogs daemonName lines s), s)
      else
        (ProcessManager.Return
           {| success := false; output := "Unknown tool: " +:+ toolName |}, s)
  | Some cfg =>
      let daemon := default false (daemon cfg) in
      let processName :=
        if JS.endsWith toolName "_start"
        then JS.replace toolName "_start" ""
        else name cfg in
      if daemon then
        match ProcessManager.startDaemon processName (command cfg) projectRoot
                (spawn host) s with
        | (ProcessManager.Return result, s') =>
            (ProcessManager.Return (ofManagerResult result), s')
        | (ProcessManager.Await l, s') => (ProcessManager.Await l, s')
        end
      else
        match runCommand (command cfg) (exec host) with
        | Returns result => (ProcessManager.Return result, s)
        | Throws message =>
            (ProcessManager.Return
               {| success := false;
                  output := "Error executing tool: " +:+ message |}, s)
        end
  end.

(** [executeTool], once the awaited [startDaemon] is resumed. *)
Definition executeTool_resume (processName : string) (l : ProcessManager.loc)
  (s : ProcessManager.Manager) : option (Result * ProcessManager.Manager) :=
  match ProcessManager.startDaemon_resume processName l s with
  | Some (result, s') => Some (ofManagerResult result, s')
  | None => None
  end.

End ToolExecutor.

(** ** The command line entry point ([src/cli.ts], function [main]) *)

Module Cli.

(** What [main] asks of the host: the working directory, the directory of
    the script, [path.isAbsolute] and [path.resolve],
    [fs.existsSync], the environment, and whether reading the file and
    [JSON.parse] go through ([None]) or throw (the error's text). *)
Record Host : Type := mkHost {
  cwd : string;
  dirname : string;
  isAbsolute : string -> bool;
  resolve : string -> string -> string;
  existsSync : string -> bool;
  readAndParse : string -> option string;
  environ : gmap string string
}.

(** How [main] ends: [process.exit(code)] after the lines written with
    [console.error], or the server started with [spawn("node",
    [serverPath], { env, stdio: "inherit" })]. *)
Inductive Outcome : Type :=
| Exit (code : Z) (errors : list string)
| Launch (serverPath : string) (env : gmap string string).

(** The lines of [printUsage], which ends with [process.exit(1)]. *)
Definition usage : list string :=
  ["Usage: npx simple-commands-mcp @<config-file>";
   "";
   "Example:";
   "  npx simple-commands-mcp @config.json";
   "  npx simple-commands-mcp @./my-tools.json";
   "  npx simple-commands-mcp @/absolute/path/to/config.json"].

(** [main], with [args = process.argv.slice(2)]. *)
Definition main (host : Host) (args : list string) : Outcome :=
  match args with
  | [] => Exit 1 usage
  | configArg :: _ =>
      if negb (String.prefix "@" configArg) then
        Exit 1 ("Error: Config file must be prefixed with @ (e.g., @config.json)"
                :: usage)
      else
        let configPath := JS.skip 1 configArg in
        let resolvedConfigPath :=
          if isAbsolute host configPath then configPath
          else resolve host (cwd host) configPath in
        if negb (existsSync host resolvedConfigPath) then
          Exit 1 ["Error: Config file not found: " +:+ resolvedConfigPath]
        else
          match readAndParse host resolvedConfigPath with
          | Some error =>
              Exit 1 ["Error: Invalid JSON in config file: " +:+ resolvedConfigPath;
                      error]
          | None =>
              let serverPath := resolve host (dirname host) "server.js" in
              let env := <["MCP_PROJECT_ROOT" := cwd host]>
                           (<["MCP_CONFIG_PATH" := resolvedConfigPath]>
                              (environ host)) in
              Launch serverPath env
          end
  end.

(** The listener [child.on("exit", code => process.exit(code || 0))]: the
    status the launcher ends with; [None] is a [null] code. *)
Definition exitStatus (code : option Z) : Z :=
  match code with
  | Some c => if (c =? 0)%Z then 0 else c
  | None => 0
  end.

End Cli.

(** * Runs of the manager

    The events of a run, the invariant they keep, and the managers that the
    examples below start from. *)

Import ProcessManager.

(** What can happen to a manager: a call of [startDaemon] or [stopDaemon],
    output or the end of a child, an ['error'] on a child, and time
    passing. An ['error'] that ends the server process ends the run; it is
    counted here as a step that leaves the manager as it is, which only
    adds to the managers that count as reachable. *)
Inductive Event : Type :=
| Start (name command cwd : string) (sp : SpawnOutcome)
| Stop (name : string) (o : KillOutcome)
| Data (st : Stream) (l : loc) (data : string)
| Exit (l : loc) (code : option Z) (signal : option string)
| Error (l : loc) (errMessage : string)
| Advance (d : Z).

Definition handle (e : Event) (s : Manager) : Manager :=
  match e with
  | Start name command cwd sp => (startDaemon name command cwd sp s).2
  | Stop name o => (stopDaemon name o s).2
  | Data st l data => dataHandler st l data s
  | Exit l code signal => childExit l code signal s
  | Error l errMessage => default s (childError l errMessage s)
  | Advance d => advance d s
  end.

Inductive reachable : Manager -> Prop :=
| reachable_init (t : Z) : reachable (init t)
| reachable_step (e : Event) (s : Manager) : reachable s -> reachable (handle e s).

(** A buffer as the manager keeps it: no empty line, and no more lines than
    its capacity. *)
Definition buffer_ok (b : ProcessOutputBuffer) : Prop :=
  Forall (fun line => line <> "") (stdout b)
  /\ Forall (fun line => line <> "") (stderr b)
  /\ (length (stdout b) <= maxLines b)%nat
  /\ (length (stderr b) <= maxLines b)%nat.

(** The invariant: every object has such buffers, and every name of the map
    refers to an object. *)
Definition Inv (s : Manager) : Prop :=
  (forall l p, store s !! l = Some p -> buffer_ok (outputBuffer p))
  /\ (forall n l, runningProcesses s !! n = Some l -> is_Some (store s !! l)).


(** What was captured before a failure, in the words of the specification:
    the standard output, then the standard error, a missing stream counting
    as empty, with a line feed between them when both have text. *)
Definition partialOutput (e : ToolExecutor.ExecError) : string :=
  let out := default "" (ToolExecutor.error_stdout e) in
  let err := default "" (ToolExecutor.error_stderr e) in
  if decide (out = "") then err
  else if decide (err = "") then out
  else out +:+ JS.nl +:+ err.

(** ** Managers used as examples *)

(** A manager in which ["server"] was started with PID 4242 at time 0, and
    the same after the liveness window. *)
Definition started_server : Manager :=
  (startDaemon "server" "node server.js" "/srv" (Spawned 4242) (init 0)).2.

Definition running_server : Manager := advance 1000 started_server.

(** ["server"] has exited with code 0 after the liveness window: its entry
    is [STOPPED] and stays in the map until the purge that is due 5000 ms
    later. *)
Definition stopped_server : Manager := childExit 0%nat (Some 0) None running_server.

(** ["server"] after its first lines on [stderr]. *)
Definition logging_server : Manager :=
  dataHandler Stderr 0%nat ("boom" +:+ JS.nl +:+ "bang" +:+ JS.nl) running_server.

(** ["server"] wrote two lines to [stderr] and exited with code 1 inside
    the liveness window. *)
Definition failing_server : Manager :=
  childExit 0%nat (Some 1) None
    (dataHandler Stderr 0%nat ("boom" +:+ JS.nl +:+ "bang" +:+ JS.nl) started_server).

(** The child of ["server"] is ended by a signal from outside as soon as it
    is started. *)
Definition crashed_server : Manager :=
  childExit 0%nat None (Some "SIGSEGV") started_server.


(** A daemon named ["my_logs_server"], past its liveness window. *)
Definition logs_server : Manager :=
  advance 1000
    (startDaemon "my_logs_server" "node logs.js" "/srv" (Spawned 5151) (init 0)).2.

(** ** Further notions used by the properties *)

(** A string made of white space only, the empty one included. *)
Definition blank (s : string) : bool := JS.whiteOnly s.

(** A string with a line feed in it. *)
Fixpoint hasLineFeed (s : string) : bool :=
  match s with
  | EmptyString => false
  | String c s' => Ascii.eqb c "010"%char || hasLineFeed s'
  end.

(** An object as [startDaemon] makes it and the listeners keep it: the
    capacity of its buffers, its PID, the name its listeners captured, and
    lines with something to read on them. *)
Definition object_ok (p : RunningProcess) : Prop :=
  maxLines (outputBuffer p) = MAX_OUTPUT_LINES
  /\ pid p = child_pid (process p)
  /\ (forall n, exit_listener (process p) = Some n -> n = name p)
  /\ (forall n, error_listener (process p) = Some n -> n = name p)
  /\ (state p = STARTING -> exit_listener (process p) = None)
  /\ Forall (fun line => blank line = false /\ hasLineFeed line = false)
            (stdout (outputBuffer p))
  /\ Forall (fun line => blank line = false) (stderr (outputBuffer p)).

(** One store continues another: every object is still there, under the
    same name. *)
Definition continues (st st' : gmap loc RunningProcess) : Prop :=
  forall l p, st !! l = Some p -> exists p', st' !! l = Some p' /\ name p' = name p.

(** Every object is in order; a name of the map refers to an object of that
    name; and so does a [startDaemon] that waits to be resumed. *)
Definition Consistent (s : Manager) : Prop :=
  (forall l p, store s !! l = Some p -> object_ok p)
  /\ (forall n l, runningProcesses s !! n = Some l ->
                  exists p, store s !! l = Some p /\ name p = n)
  /\ (forall due n l, In (due, ResumeStart n l) (timers s) ->
                      exists p, store s !! l = Some p /\ name p = n).

(** [suffix] does not occur in [base +:+ suffix] before its end. *)
Definition occursOnlyAtEnd (base suffix : string) : Prop :=
  forall i, (i < String.length base)%nat ->
            String.prefix suffix (JS.skip i (base +:+ suffix)) = false.

(** The state the exit listener stores for an exit code. *)
Definition terminalState (code : option Z) : ProcessState :=
  if bool_decide (code = Some 0) then STOPPED else FAILED.

(** ["server"] is stopped and started again at once; its first child, which
    got the signal, has not ended yet. *)
Definition restarted_server : Manager :=
  (startDaemon "server" "node server.js" "/srv" (Spawned 4300)
     (stopDaemon "server" KillDelivered running_server).2).2.

(** * Properties *)

(** ** The output buffer *)

Section OutputBuffer.

Variable maxLines : nat.

Lemma tail_drop {A} (l : list A) : tail l = drop 1 l.
Proof. by destruct l. Qed.

(** One push on a buffer within its capacity keeps the last [maxLines]
    lines of what has been pushed. *)
Lemma addToBuffer_drop (buffer : list string) (line : string) :
  (length buffer <= maxLines)%nat ->
  addToBuffer buffer line maxLines
  = drop (length (buffer ++ [line]) - maxLines) (buffer ++ [line]).
Proof.
  intros Hlen. unfold addToBuffer. rewrite length_app. simpl.
  destruct (Nat.ltb_spec maxLines (length buffer + 1)) as [Hgt | Hle].
  - replace (length buffer + 1 - maxLines)%nat with 1%nat by lia.
    apply tail_drop.
  - replace (length buffer + 1 - maxLines)%nat with 0%nat by lia.
    reflexivity.
Qed.

Lemma addToBuffer_length (buffer : list string) (line : string) :
  (length buffer <= maxLines)%nat ->
  (length (addToBuffer buffer line maxLines) <= maxLines)%nat.
Proof.
  intros Hlen. rewrite addToBuffer_drop by done.
  rewrite length_drop. lia.
Qed.

Lemma pushAll_length (lines buffer : list string) :
  (length buffer <= maxLines)%nat ->
  (length (pushAll buffer lines maxLines) <= maxLines)%nat.
Proof.
  revert buffer. induction lines as [| x lines IH]; intros buffer Hlen; simpl.
  - done.
  - apply IH. by apply addToBuffer_length.
Qed.

(** Any number of pushes keeps the last [maxLines] lines, in push order. *)
Lemma pushAll_drop (lines buffer : list string) :
  (length buffer <= maxLines)%nat ->
  pushAll buffer lines maxLines
  = drop (length (buffer ++ lines) - maxLines) (buffer ++ lines).
Proof.
  revert buffer. induction lines as [| x lines IH]; intros buffer Hlen.
  - simpl. rewrite app_nil_r.
    replace (length buffer - maxLines)%nat with 0%nat by lia. done.
  - change (pushAll buffer (x :: lines) maxLines)
      with (pushAll (addToBuffer buffer x maxLines) lines maxLines).
    rewrite IH by (by apply addToBuffer_length).
    rewrite addToBuffer_drop by done.
    set (k := (length (buffer ++ [x]) - maxLines)%nat).
    assert (Hk : (k <= length (buffer ++ [x]))%nat) by (unfold k; lia).
    rewrite <- (drop_app_le (buffer ++ [x]) lines k Hk).
    rewrite drop_drop. rewrite <- (assoc_L (++)). simpl.
    f_equal. rewrite length_drop, !length_app. simpl.
    unfold k. rewrite length_app. simpl. lia.
Qed.

Lemma pushAll_Forall (P : string -> Prop) (lines buffer : list string) :
  Forall P buffer -> Forall P lines -> Forall P (pushAll buffer lines maxLines).
Proof.
  revert buffer. induction lines as [| x lines IH]; intros buffer Hb Hl; simpl.
  - done.
  - inversion Hl; subst. apply IH; [| done].
    unfold addToBuffer. case_match.
    + rewrite tail_drop. apply Forall_drop, Forall_app. by split; [| constructor].
    + apply Forall_app. by split; [| constructor].
Qed.

End OutputBuffer.

(** C2. Pushing more than [maxLines] lines into a fresh buffer (capacity
    1000 as created) leaves exactly the last [maxLines] pushed lines, in push
    order; after every prefix of the pushes the buffer holds at most
    [maxLines] lines; and a push on a full buffer evicts its oldest line. *)
Theorem C2_buffer_keeps_last_lines (cap : nat) (lines : list string)
  (Hmore : (cap < length lines)%nat) :
  maxLines createOutputBuffer = 1000%nat
  /\ stdout createOutputBuffer = [] /\ stderr createOutputBuffer = []
  /\ pushAll [] lines cap = drop (length lines - cap) lines
  /\ length (pushAll [] lines cap) = cap
  /\ (forall k, (length (pushAll [] (take k lines) cap) <= cap)%nat)
  /\ (forall oldest rest line,
        length (oldest :: rest) = cap ->
        addToBuffer (oldest :: rest) line cap = rest ++ [line]).
Proof.
  repeat split.
  - rewrite pushAll_drop by (simpl; lia). done.
  - rewrite pushAll_drop by (simpl; lia). simpl. rewrite length_drop. lia.
  - intros k. apply pushAll_length. simpl. lia.
  - intros oldest rest line Hfull. unfold addToBuffer.
    rewrite length_app. simpl in *.
    destruct (Nat.ltb_spec cap (S (length rest + 1))); [done | lia].
Qed.

Lemma C2_buffer_keeps_last_lines_witness :
  (3 < length ["a"; "b"; "c"; "d"; "e"])%nat
  /\ pushAll [] ["a"; "b"; "c"; "d"; "e"] 3 = ["c"; "d"; "e"].
Proof.
  assert (Hmore : (3 < length ["a"; "b"; "c"; "d"; "e"])%nat) by (simpl; lia).
  split; [exact Hmore |].
  exact (proj1 (proj2 (proj2 (proj2
           (C2_buffer_keeps_last_lines 3 ["a"; "b"; "c"; "d"; "e"] Hmore))))).
Defined.

(** ** Looking up the map after an update *)

Lemma get_None (n : string) (s : Manager) :
  runningProcesses s !! n = None -> get n s = None.
Proof. intros H. unfold get. by rewrite H. Qed.

Lemma get_Some_inv (n : string) (s : Manager) (l : loc) (p : RunningProcess) :
  get n s = Some (l, p) -> runningProcesses s !! n = Some l /\ store s !! l = Some p.
Proof.
  unfold get. intros H.
  destruct (runningProcesses s !! n) as [l' |]; [| done].
  destruct (store s !! l') as [p' |] eqn:Hp; [| done].
  by simplify_eq.
Qed.

Lemma get_delete (n : string) (s : Manager) :
  get n (with_map (delete n) s) = None.
Proof. apply get_None. simpl. apply lookup_delete_eq. Qed.

Lemma getProcessStatus_None (n : string) (s : Manager) :
  get n s = None -> getProcessStatus n s = None.
Proof. intros H. unfold getProcessStatus. by rewrite H. Qed.

Lemma getProcessLogs_None (n : string) (k : Z) (s : Manager) :
  get n s = None -> getProcessLogs n k s = None.
Proof. intros H. unfold getProcessLogs. by rewrite H. Qed.

(** A [Purge] of a name that is not in the map changes nothing. *)
Lemma purge_absent (n : string) (s : Manager) :
  runningProcesses s !! n = None -> runTask (Purge n) s = s.
Proof.
  intros H. destruct s as [m st q t]. simpl in *.
  unfold with_map. simpl. by rewrite delete_id.
Qed.

(** [startDaemon] turns down every name that has an entry. *)
Lemma startDaemon_existing (s : Manager) (n command cwd : string) (sp : SpawnOutcome)
  (l : loc) (existing : RunningProcess) :
  get n s = Some (l, existing) ->
  startDaemon n command cwd sp s
  = (Return {| success := false;
               message := "Daemon '" +:+ n +:+ "' is already running (PID: "
                          +:+ pretty (pid existing) +:+ ")" |}, s).
Proof. intros H. unfold startDaemon. by rewrite H. Qed.

(** ** Starting a name that is live *)

(** C1. If the map holds an entry for [n] in state [STARTING] or [RUNNING]
    with PID [p], [startDaemon n] returns at once (no wait) with
    [success = false] and a message that contains [p] in decimal, and the
    manager (map, objects with their state, buffers and process, timers) is
    exactly what it was. *)
Theorem C1_start_of_live_name_fails (s : Manager) (n command cwd : string)
  (sp : SpawnOutcome) (l : loc) (existing : RunningProcess)
  (Hentry : get n s = Some (l, existing))
  (Hlive : state existing = STARTING \/ state existing = RUNNING) :
  exists r,
    startDaemon n command cwd sp s = (Return r, s)
    /\ success r = false
    /\ message r = "Daemon '" +:+ n +:+ "' is already running (PID: "
                   +:+ pretty (pid existing) +:+ ")"
    /\ get n (startDaemon n command cwd sp s).2 = Some (l, existing).
Proof.
  eexists. rewrite (startDaemon_existing s n command cwd sp l existing Hentry).
  repeat split. exact Hentry.
Qed.

Lemma C1_start_of_live_name_fails_witness :
  exists r,
    startDaemon "server" "node server.js" "/srv" (Spawned 77) started_server
    = (Return r, started_server)
    /\ message r = "Daemon 'server' is already running (PID: 4242)".
Proof.
  destruct (C1_start_of_live_name_fails started_server "server" "node server.js"
              "/srv" (Spawned 77) 0%nat
              (mkRunning "server" (mkChild 4242 false None None [] None None)
                         4242 0 STARTING createOutputBuffer))
    as (r & Hr & _ & Hm & _).
  - vm_compute. reflexivity.
  - left. reflexivity.
  - exists r. split; [exact Hr |]. rewrite Hm. vm_compute. reflexivity.
Defined.

(** ** Stopping *)

(** C3. [stopDaemon n] on a name without an entry fails with the "is not
    running" message and changes nothing. On a name with an entry, when
    [kill] returns, it succeeds and the entry is out of the map when it
    returns (it is a plain function: it waits for nothing). What it has
    done to the child is in the store: if the signal was delivered the
    child is marked killed and [SIGTERM], no other signal, has been added
    to the signals it was sent; if there was no process left the child is
    as before; the rest of the object, the timers and the clock are
    untouched. [getProcessStatus] and [getProcessLogs] on the resulting
    manager find nothing; and the later removal by the exit listener's
    timer, like the exit listener itself, leaves a manager without the
    entry as it is. *)
Theorem C3_stop_removes_entry_at_once (s : Manager) (n : string) :
  (runningProcesses s !! n = None ->
   forall o, stopDaemon n o s
             = ({| success := false;
                   message := "Daemon '" +:+ n +:+ "' is not running" |}, s))
  /\ (forall l running o,
        get n s = Some (l, running) ->
        o = KillDelivered \/ o = KillNoProcess ->
        let s' := (stopDaemon n o s).2 in
        (stopDaemon n o s).1
        = {| success := true;
             message := "Stopped daemon '" +:+ n +:+ "' (PID: "
                        +:+ pretty (pid running) +:+ ")" |}
        /\ runningProcesses s' = delete n (runningProcesses s)
        /\ runningProcesses s' !! n = None
        /\ (exists child',
              store s' = <[l := with_process child' running]> (store s)
              /\ (o = KillDelivered ->
                  child' = mkChild (child_pid (process running)) true
                             (exitCode (process running))
                             (signalCode (process running))
                             (signals (process running) ++ [SIGTERM])
                             (exit_listener (process running))
                             (error_listener (process running)))
              /\ (o = KillNoProcess -> child' = process running))
        /\ timers s' = timers s
        /\ now s' = now s
        /\ getProcessStatus n s' = None
        /\ (forall k, getProcessLogs n k s' = None)
        /\ runTask (Purge n) s' = s'
        /\ (forall code signal, exitHandler n code signal s' = s'))
  /\ (forall s0 : Manager,
        runningProcesses s0 !! n = None ->
        runTask (Purge n) s0 = s0
        /\ forall code signal, exitHandler n code signal s0 = s0).
Proof.
  split; [| split].
  - intros Habs o. unfold stopDaemon. by rewrite get_None.
  - intros l running o Hentry Ho.
    assert (Hkill : exists b child',
               kill SIGTERM o (process running) = inr (b, child')
               /\ (o = KillDelivered ->
                   child' = mkChild (child_pid (process running)) true
                              (exitCode (process running))
                              (signalCode (process running))
                              (signals (process running) ++ [SIGTERM])
                              (exit_listener (process running))
                              (error_listener (process running)))
               /\ (o = KillNoProcess -> child' = process running)).
    { destruct Ho as [-> | ->]; simpl; eexists _, _; split_and!; done. }
    destruct Hkill as (b & child' & Hkill & Hdelivered & Hnone).
    unfold stopDaemon. rewrite Hentry, Hkill. cbn zeta. simpl fst. simpl snd.
    set (s' := with_map _ _).
    assert (Hgone : runningProcesses s' !! n = None) by apply lookup_delete_eq.
    split_and!.
    + done.
    + done.
    + done.
    + exists child'. split_and!; done.
    + done.
    + done.
    + by apply getProcessStatus_None, get_None.
    + intros k. by apply getProcessLogs_None, get_None.
    + by apply purge_absent.
    + intros code signal. unfold exitHandler. by rewrite get_None.
  - intros s0 Habs. split.
    + by apply purge_absent.
    + intros code signal. unfold exitHandler. by rewrite get_None.
Qed.

Lemma C3_stop_removes_entry_at_once_witness :
  stopDaemon "ghost" KillDelivered running_server
  = ({| success := false; message := "Daemon 'ghost' is not running" |},
     running_server)
  /\ (stopDaemon "server" KillDelivered running_server).1
     = {| success := true; message := "Stopped daemon 'server' (PID: 4242)" |}
  /\ getProcessStatus "server" (stopDaemon "server" KillDelivered running_server).2
     = None
  /\ exists child',
       store (stopDaemon "server" KillDelivered running_server).2 !! 0%nat
       = Some (mkRunning "server" child' 4242 0 RUNNING createOutputBuffer)
       /\ signals child' = [SIGTERM].
Proof.
  destruct (C3_stop_removes_entry_at_once running_server "ghost") as (Habs & _ & _).
  destruct (C3_stop_removes_entry_at_once running_server "server") as (_ & Hpre & _).
  split.
  - apply Habs. vm_compute. reflexivity.
  - destruct (Hpre 0%nat
                (mkRunning "server"
                   (mkChild 4242 false None None [] (Some "server") (Some "server"))
                   4242 0 RUNNING createOutputBuffer)
                KillDelivered)
      as (Hr & _ & _ & (child' & Hstore & Hdelivered & _) & _ & _ & Hst & _).
    + vm_compute. reflexivity.
    + by left.
    + split; [exact Hr |]. split; [exact Hst |].
      exists child'. rewrite Hstore, lookup_insert_eq.
      rewrite (Hdelivered eq_refl). split; reflexivity.
Defined.

(** C10. If [kill('SIGTERM')] throws inside [stopDaemon n], the call returns
    [success = false] with the error's message and the manager is exactly
    what it was: the entry is still in the map with the same object, so
    [getProcessStatus] and [getProcessLogs] still answer, and a later
    [stopDaemon n] does not answer "is not running". *)
Theorem C10_stop_keeps_entry_when_kill_throws (s : Manager) (n err : string)
  (l : loc) (running : RunningProcess)
  (Hentry : get n s = Some (l, running)) :
  stopDaemon n (KillThrows err) s
  = ({| success := false; message := "Failed to stop daemon: " +:+ err |}, s)
  /\ let s' := (stopDaemon n (KillThrows err) s).2 in
     s' = s
     /\ get n s' = Some (l, running)
     /\ is_Some (getProcessStatus n s')
     /\ (forall k, is_Some (getProcessLogs n k s'))
     /\ (forall o, message (stopDaemon n o s').1
                   <> "Daemon '" +:+ n +:+ "' is not running").
Proof.
  assert (Hstop : stopDaemon n (KillThrows err) s
                  = ({| success := false;
                        message := "Failed to stop daemon: " +:+ err |}, s)).
  { unfold stopDaemon. by rewrite Hentry. }
  rewrite Hstop. cbn zeta. simpl snd. split_and!; try done.
  - unfold getProcessStatus. rewrite Hentry. by eexists.
  - intros k. unfold getProcessLogs. rewrite Hentry. by eexists.
  - intros o. unfold stopDaemon. rewrite Hentry.
    destruct o; simpl; intros Heq; discriminate Heq.
Qed.

Lemma C10_stop_keeps_entry_when_kill_throws_witness :
  stopDaemon "server" (KillThrows "kill EPERM") running_server
  = ({| success := false; message := "Failed to stop daemon: kill EPERM" |},
     running_server).
Proof.
  refine (proj1 (C10_stop_keeps_entry_when_kill_throws running_server "server"
                   "kill EPERM" 0%nat
                   (mkRunning "server"
                      (mkChild 4242 false None None [] (Some "server") (Some "server"))
                      4242 0 RUNNING createOutputBuffer) _)).
  vm_compute. reflexivity.
Defined.

(** ** Starting a name whose entry is terminal *)

(** C6, as the code has it: while the entry of a daemon that has stopped is
    still in the map, [isDaemonRunning] is false and yet [startDaemon]
    spawns nothing and answers "is already running". *)
Theorem C6_start_within_grace_window_is_rejected :
  (exists l p, get "server" stopped_server = Some (l, p) /\ state p = STOPPED)
  /\ isDaemonRunning "server" stopped_server = false
  /\ startDaemon "server" "node server.js" "/srv" (Spawned 4243) stopped_server
     = (Return {| success := false;
                  message := "Daemon 'server' is already running (PID: 4242)" |},
        stopped_server).
Proof.
  split; [| split].
  - eexists _, _. split; vm_compute; reflexivity.
  - vm_compute. reflexivity.
  - vm_compute. reflexivity.
Qed.

(** ** Logs *)

Lemma truthy_true (v : string) : JS.truthy v = true <-> v <> "".
Proof.
  unfold JS.truthy. destruct (String.eqb_spec v ""); simpl; split; congruence.
Qed.

Lemma truthy_false (v : string) : JS.truthy v = false <-> v = "".
Proof.
  unfold JS.truthy. destruct (String.eqb_spec v ""); simpl; split; congruence.
Qed.

Lemma or_else_nonempty (a b : string) : a <> "" -> JS.or_else a b = a.
Proof. intros H. unfold JS.or_else. by rewrite (proj2 (truthy_true a) H). Qed.

(** [xs.slice(-k)] for a count [k] of at least one: the last [k] elements,
    or all of them when there are fewer. *)
Lemma slice_last {A} (k : Z) (xs : list A) :
  1 <= k -> JS.slice (- k) xs = drop (length xs - Z.to_nat k) xs.
Proof.
  intros Hk. unfold JS.slice.
  destruct (Z.ltb_spec (- k) 0) as [_ | Hge]; [| lia].
  f_equal. lia.
Qed.

Lemma slice_last_length {A} (k : Z) (xs : list A) :
  1 <= k -> length (JS.slice (- k) xs) = Nat.min (Z.to_nat k) (length xs).
Proof. intros Hk. rewrite slice_last by done. rewrite length_drop. lia. Qed.

(** C8 as stated fails for the count 0: [slice(-0)] is [slice(0)], the whole
    buffer, so two lines come back where at most none were asked for. *)
Lemma C8_logs_zero_count_counterexample :
  getProcessLogs "server" 0 logging_server = Some ([], ["boom"; "bang"])
  /\ ~ (forall out err,
          getProcessLogs "server" 0 logging_server = Some (out, err) ->
          Z.of_nat (length out) <= 0 /\ Z.of_nat (length err) <= 0).
Proof.
  assert (H : getProcessLogs "server" 0 logging_server = Some ([], ["boom"; "bang"]))
    by (vm_compute; reflexivity).
  split; [exact H |].
  intros Hall. destruct (Hall _ _ H) as [_ Herr]. simpl in Herr. lia.
Qed.

(** C8, amended to counts of at least one. For a name with an entry,
    [getProcessLogs n k] gives, for each stream on its own, the last [k]
    lines of the buffer in buffer order: at most [k] of them, and fewer
    than [k] only when the buffer holds fewer. Without an entry it gives
    [null], which the executor reports as a failure. The default count is
    50, in the manager and in the dispatcher. *)
Theorem C8_logs_return_last_k_lines (s : Manager) (n : string) (k : Z)
  (Hk : 1 <= k) :
  (forall l proc,
      get n s = Some (l, proc) ->
      let out := stdout (outputBuffer proc) in
      let err := stderr (outputBuffer proc) in
      getProcessLogs n k s
      = Some (drop (length out - Z.to_nat k) out, drop (length err - Z.to_nat k) err)
      /\ length (drop (length out - Z.to_nat k) out) = Nat.min (Z.to_nat k) (length out)
      /\ length (drop (length err - Z.to_nat k) err) = Nat.min (Z.to_nat k) (length err))
  /\ (runningProcesses s !! n = None ->
      getProcessLogs n k s = None
      /\ ToolExecutor.getProcessLogs n k s
         = ToolExecutor.mkResult false
             ("Daemon '" +:+ n +:+ "' is not running or has no logs"))
  /\ getProcessLogs_default n s = getProcessLogs n 50 s
  /\ ToolExecutor.linesOrDefault None = 50
  /\ ToolExecutor.linesOrDefault (Some (ToolExecutor.mkArgs None)) = 50
  /\ ToolExecutor.linesOrDefault (Some (ToolExecutor.mkArgs (Some k))) = k.
Proof.
  split_and!.
  - intros l proc Hentry out err. unfold getProcessLogs. rewrite Hentry.
    rewrite !slice_last by done. split_and!; [done | |]; rewrite length_drop; lia.
  - intros Habs. unfold ToolExecutor.getProcessLogs.
    rewrite getProcessLogs_None by (by apply get_None). done.
  - done.
  - done.
  - done.
  - unfold ToolExecutor.linesOrDefault. simpl.
    destruct (Z.eqb_spec k 0); [lia | done].
Qed.

Lemma C8_logs_return_last_k_lines_witness :
  (1 <= 1)
  /\ getProcessLogs "server" 1 logging_server = Some ([], ["bang"]).
Proof.
  assert (Hk : 1 <= 1) by lia.
  split; [exact Hk |].
  refine (proj1 (proj1 (C8_logs_return_last_k_lines logging_server "server" 1 Hk)
                   0%nat
                   (mkRunning "server"
                      (mkChild 4242 false None None [] (Some "server") (Some "server"))
                      4242 0 RUNNING
                      (mkBuffer [] ["boom"; "bang"] 1000)) _)).
  vm_compute. reflexivity.
Defined.

(** ** The invariant of the manager *)

Lemma Inv_init (t : Z) : Inv (init t).
Proof. split; intros ? ?; simpl; by rewrite lookup_empty. Qed.

Lemma Inv_frame (m : gmap string loc) (st : gmap loc RunningProcess)
  (q q' : list (Z * Task)) (t t' : Z) :
  Inv (mkManager m st q t) -> Inv (mkManager m st q' t').
Proof. done. Qed.

Lemma Inv_setTimeout (task : Task) (delay : Z) (s : Manager) :
  Inv s -> Inv (setTimeout task delay s).
Proof. destruct s. apply Inv_frame. Qed.

(** Overwriting an object that exists, with buffers that are in order. *)
Lemma Inv_overwrite (s : Manager) (l : loc) (p p' : RunningProcess) :
  Inv s -> store s !! l = Some p -> buffer_ok (outputBuffer p') ->
  Inv (with_store (<[l := p']>) s).
Proof.
  intros [Hb Hc] Hl Hok. split; simpl.
  - intros l0 p0. rewrite lookup_insert. case_decide; [| by apply Hb].
    intros ?; by simplify_eq.
  - intros n0 l0 Hn. rewrite lookup_insert. case_decide; [by eexists |].
    by eapply Hc.
Qed.

Lemma Inv_delete (s : Manager) (n : string) :
  Inv s -> Inv (with_map (delete n) s).
Proof.
  intros [Hb Hc]. split; simpl; [done |].
  intros n0 l0. rewrite lookup_delete. case_decide; [done |]. apply Hc.
Qed.

Lemma Inv_buffer (s : Manager) (l : loc) (p : RunningProcess) :
  Inv s -> store s !! l = Some p -> buffer_ok (outputBuffer p).
Proof. intros [Hb _]. apply Hb. Qed.

Lemma buffer_ok_create : buffer_ok createOutputBuffer.
Proof. unfold buffer_ok, createOutputBuffer, MAX_OUTPUT_LINES. simpl. split_and!; (done || lia). Qed.

Lemma trim_empty : JS.trim "" = "".
Proof. reflexivity. Qed.

(** The lines a ['data'] listener pushes are not empty. *)
Lemma dataLines_nonempty (data : string) :
  Forall (fun line => line <> "") (dataLines data).
Proof.
  unfold dataLines. apply List.Forall_forall. intros line Hin.
  apply List.filter_In in Hin as [_ Ht]. intros ->.
  rewrite trim_empty in Ht. discriminate Ht.
Qed.

Lemma Inv_startDaemon (n command cwd : string) (sp : SpawnOutcome) (s : Manager) :
  Inv s -> Inv (startDaemon n command cwd sp s).2.
Proof.
  intros HI. unfold startDaemon.
  destruct (get n s) as [[l existing] |]; [done |].
  destruct sp as [err | p]; [done |]. simpl.
  apply Inv_frame with (q := timers s) (t := now s).
  destruct HI as [Hb Hc]. split; simpl.
  - intros l0 p0. rewrite lookup_insert. case_decide; [| by apply Hb].
    intros ?; simplify_eq. apply buffer_ok_create.
  - intros n0 l0. rewrite lookup_insert. case_decide.
    + intros ?; simplify_eq. rewrite lookup_insert_eq. by eexists.
    + intros Hn. rewrite lookup_insert. case_decide; [by eexists |]. by eapply Hc.
Qed.

Lemma Inv_startDaemon_resume (n : string) (l : loc) (s : Manager) (r : Result)
  (s' : Manager) :
  Inv s -> startDaemon_resume n l s = Some (r, s') -> Inv s'.
Proof.
  intros HI. unfold startDaemon_resume.
  destruct (store s !! l) as [p |] eqn:Hl; [| done].
  case_match; intros ?; simplify_eq.
  - by apply Inv_delete.
  - eapply Inv_overwrite; [done | done |]. simpl. by eapply Inv_buffer.
Qed.

Lemma Inv_stopDaemon (n : string) (o : KillOutcome) (s : Manager) :
  Inv s -> Inv (stopDaemon n o s).2.
Proof.
  intros HI. unfold stopDaemon.
  destruct (get n s) as [[l running] |] eqn:Hg; [| done].
  apply get_Some_inv in Hg as [_ Hl].
  destruct (kill SIGTERM o (process running)) as [err | [b child']]; [done |].
  simpl. apply Inv_delete. eapply Inv_overwrite; [done | done |].
  simpl. by eapply Inv_buffer.
Qed.

Lemma Inv_dataHandler (st : Stream) (l : loc) (data : string) (s : Manager) :
  Inv s -> Inv (dataHandler st l data s).
Proof.
  intros HI. unfold dataHandler.
  destruct (store s !! l) as [p |] eqn:Hl; [| done].
  eapply Inv_overwrite; [done | done |].
  destruct (Inv_buffer s l p HI Hl) as (Ho & He & Hlo & Hle).
  destruct st; simpl; unfold buffer_ok; simpl; split_and!; try done.
  - apply pushAll_Forall; [done | apply dataLines_nonempty].
  - by apply pushAll_length.
  - apply pushAll_Forall; [done | apply dataLines_nonempty].
  - by apply pushAll_length.
Qed.

Lemma Inv_exitHandler (n : string) (code : option Z) (signal : option string)
  (s : Manager) :
  Inv s -> Inv (exitHandler n code signal s).
Proof.
  intros HI. unfold exitHandler.
  destruct (get n s) as [[l proc] |] eqn:Hg; [| done].
  apply get_Some_inv in Hg as [_ Hl].
  apply Inv_setTimeout. eapply Inv_overwrite; [done | done |].
  simpl. by eapply Inv_buffer.
Qed.

Lemma Inv_errorHandler (n errMessage : string) (s : Manager) :
  Inv s -> Inv (errorHandler n errMessage s).
Proof.
  intros HI. unfold errorHandler. apply Inv_setTimeout.
  destruct (get n s) as [[l proc] |] eqn:Hg; [| done].
  apply get_Some_inv in Hg as [_ Hl].
  eapply Inv_overwrite; [done | done |].
  destruct (Inv_buffer s l proc HI Hl) as (Ho & He & Hlo & Hle).
  unfold buffer_ok; simpl; split_and!; try done.
  - unfold addToBuffer. case_match.
    + rewrite tail_drop. apply Forall_drop, Forall_app. split; [done |].
      constructor; [discriminate | constructor].
    + apply Forall_app. split; [done |]. constructor; [discriminate | constructor].
  - by apply addToBuffer_length.
Qed.

Lemma Inv_childExit (l : loc) (code : option Z) (signal : option string)
  (s : Manager) :
  Inv s -> Inv (childExit l code signal s).
Proof.
  intros HI. unfold childExit.
  destruct (store s !! l) as [p |] eqn:Hl; [| done].
  assert (HI' : Inv (with_store
                       (<[l := with_process
                                 (mkChild (child_pid (process p)) (killed (process p))
                                    code signal (signals (process p))
                                    (exit_listener (process p))
                                    (error_listener (process p))) p]>) s)).
  { eapply Inv_overwrite; [done | done |]. simpl. by eapply Inv_buffer. }
  destruct (exit_listener (process p)); [| done].
  by apply Inv_exitHandler.
Qed.

Lemma Inv_childError (l : loc) (errMessage : string) (s : Manager) :
  Inv s -> Inv (default s (childError l errMessage s)).
Proof.
  intros HI. unfold childError.
  destruct (store s !! l) as [p |]; [| done].
  destruct (error_listener (process p)); [| done].
  by apply Inv_errorHandler.
Qed.

Lemma Inv_runTask (t : Task) (s : Manager) : Inv s -> Inv (runTask t s).
Proof.
  intros HI. destruct t as [n l | n]; simpl.
  - destruct (startDaemon_resume n l s) as [[r s'] |] eqn:Hr; [| done].
    by eapply Inv_startDaemon_resume.
  - by apply Inv_delete.
Qed.

Lemma Inv_runTasks (due : list (Z * Task)) (s : Manager) :
  Inv s -> Inv (foldl (fun s' x => runTask x.2 s') s due).
Proof.
  revert s. induction due as [| x due IH]; intros s HI; simpl; [done |].
  apply IH. by apply Inv_runTask.
Qed.

Lemma Inv_advance (d : Z) (s : Manager) : Inv s -> Inv (advance d s).
Proof.
  intros HI. unfold advance. apply Inv_runTasks.
  destruct s. by eapply Inv_frame.
Qed.

(** The invariant holds in every manager that a run of events leads to. *)
Lemma reachable_Inv (s : Manager) : reachable s -> Inv s.
Proof.
  induction 1 as [t | e s _ IH].
  - apply Inv_init.
  - destruct e; simpl.
    + by apply Inv_startDaemon.
    + by apply Inv_stopDaemon.
    + by apply Inv_dataHandler.
    + by apply Inv_childExit.
    + by apply Inv_childError.
    + by apply Inv_advance.
Qed.

(** ** The liveness window *)

Lemma in_schedule (due : Z) (t : Task) (q : list (Z * Task)) :
  In (due, t) (schedule due t q).
Proof.
  induction q as [| x q IH]; simpl; [by left |].
  case_match; simpl; auto.
Qed.


(** A call of [startDaemon] for a free name whose [spawn] succeeds: a new
    object in state [STARTING] with empty buffers is in the map under the
    name, and the call waits for a timer that is due 1000 ms later. *)
Lemma startDaemon_spawned (s : Manager) (n command cwd : string) (p : Z) :
  get n s = None ->
  exists l s1,
    startDaemon n command cwd (Spawned p) s = (Await l, s1)
    /\ store s !! l = None
    /\ get n s1
       = Some (l, mkRunning n (mkChild p false None None [] None None) p (now s)
                    STARTING createOutputBuffer)
    /\ In (now s + 1000, ResumeStart n l) (timers s1)
    /\ now s1 = now s.
Proof.
  intros Hfree. unfold startDaemon. rewrite Hfree.
  eexists _, _. split; [reflexivity |]. split_and!.
  - apply not_elem_of_dom, is_fresh.
  - unfold get, setTimeout. simpl. by rewrite !lookup_insert_eq.
  - simpl. apply in_schedule.
  - done.
Qed.

Lemma join_nonempty (sep : string) (xs : list string) :
  Forall (fun line => line <> "") xs -> xs <> [] -> JS.join sep xs <> "".
Proof.
  intros Hall Hne. destruct xs as [| x xs]; [done |].
  inversion Hall as [| ? ? Hx _]; subst.
  destruct x as [| c x]; [done |].
  unfold JS.join. destruct xs; simpl; discriminate.
Qed.

Lemma failing_server_reachable : reachable failing_server.
Proof.
  exact (reachable_step (Exit 0%nat (Some 1) None) _
           (reachable_step (Data Stderr 0%nat ("boom" +:+ JS.nl +:+ "bang" +:+ JS.nl)) _
              (reachable_step (Start "server" "node server.js" "/srv" (Spawned 4242)) _
                 (reachable_init 0)))).
Qed.

(** Where the sample of [startDaemon] does see the end of the child. A call
    of [startDaemon] that spawns waits for a timer due exactly 1000 ms
    later. When it is resumed and finds [child.killed] set or an exit code
    on the child, it returns [success = false]; the diagnostic after the
    heading is the stderr lines joined by line feeds, or [Process exited
    immediately] when no line was captured; and the name is out of the map,
    so [getProcessStatus] right afterwards gives [null]. The hypothesis
    [Inv s] holds in every reachable manager ([reachable_Inv]). *)
Lemma startDaemon_resume_gone (s : Manager) (n : string) (l : loc)
  (runningProcess : RunningProcess)
  (Hinv : Inv s)
  (Hobj : store s !! l = Some runningProcess)
  (Hgone : killed (process runningProcess) = true
           \/ exitCode (process runningProcess) <> None) :
  (forall s0 command cwd p,
      get n s0 = None ->
      exists l0 s1,
        startDaemon n command cwd (Spawned p) s0 = (Await l0, s1)
        /\ In (now s0 + 1000, ResumeStart n l0) (timers s1))
  /\ exists r s',
      startDaemon_resume n l s = Some (r, s')
      /\ success r = false
      /\ message r
         = "Error: Daemon failed to start:" +:+ JS.nl
           +:+ (if decide (stderr (outputBuffer runningProcess) = [])
                then "Process exited immediately"
                else JS.join JS.nl (stderr (outputBuffer runningProcess)))
      /\ runningProcesses s' = delete n (runningProcesses s)
      /\ store s' = store s
      /\ runningProcesses s' !! n = None
      /\ getProcessStatus n s' = None.
Proof.
  split.
  - intros s0 command cwd p Hfree.
    destruct (startDaemon_spawned s0 n command cwd p Hfree)
      as (l0 & s1 & Hs & _ & _ & Ht & _).
    by exists l0, s1.
  - unfold startDaemon_resume. rewrite Hobj.
    assert (Hcond : killed (process runningProcess)
                    || bool_decide (exitCode (process runningProcess) <> None) = true).
    { destruct Hgone as [-> | Hc]; [done |].
      rewrite (bool_decide_eq_true_2 _ Hc). apply orb_true_r. }
    rewrite Hcond. eexists _, _. split; [reflexivity |].
    split_and!; try done.
    + simpl. f_equal. f_equal.
      destruct (decide (stderr (outputBuffer runningProcess) = [])) as [-> | Hne].
      * reflexivity.
      * apply or_else_nonempty, join_nonempty; [| done].
        by destruct (Inv_buffer s l runningProcess Hinv Hobj) as (_ & He & _).
    + simpl. apply lookup_delete_eq.
    + apply getProcessStatus_None, get_delete.
Qed.

Example startDaemon_resume_gone_failing_server :
  exists r s',
    startDaemon_resume "server" 0%nat failing_server = Some (r, s')
    /\ message r = "Error: Daemon failed to start:" +:+ JS.nl
                   +:+ "boom" +:+ JS.nl +:+ "bang"
    /\ getProcessStatus "server" s' = None.
Proof.
  destruct (startDaemon_resume_gone failing_server "server" 0%nat
              (mkRunning "server" (mkChild 4242 false (Some 1) None [] None None)
                 4242 0 STARTING (mkBuffer [] ["boom"; "bang"] 1000)))
    as (_ & r & s' & Hr & _ & Hm & _ & _ & _ & Hst).
  - apply reachable_Inv, failing_server_reachable.
  - vm_compute. reflexivity.
  - right. simpl. discriminate.
  - exists r, s'. split; [exact Hr |]. split; [| exact Hst].
    rewrite Hm. vm_compute. reflexivity.
Qed.

(** C4, as the code has it. ["server"] is started and its child is ended
    by a signal 0 ms later, well inside the liveness window: Node records
    the signal and a [null] exit code, and [child.killed] stays false, as
    the manager sent nothing. The sample of [startDaemon] looks at
    [killed] and [exitCode] only: the call returns a success, the entry
    becomes [RUNNING] and stays in the map, and no removal is scheduled,
    so the status 1000 ms and 60000 ms later still shows a running
    daemon. *)
Theorem C4_signal_death_in_window_is_reported_as_started :
  (exists p,
      store crashed_server !! 0%nat = Some p
      /\ exitCode (process p) = None
      /\ signalCode (process p) = Some "SIGSEGV"
      /\ killed (process p) = false)
  /\ (exists s',
        startDaemon_resume "server" 0%nat crashed_server
        = Some ({| success := true;
                   message := "Started daemon 'server' (PID: 4242)" |}, s')
        /\ runningProcesses s' !! "server" = Some 0%nat)
  /\ isDaemonRunning "server" (advance 1000 crashed_server) = true
  /\ timers (advance 1000 crashed_server) = []
  /\ (exists st,
        getProcessStatus "server" (advance 60000 (advance 1000 crashed_server))
        = Some st
        /\ status_state st = RUNNING).
Proof.
  split_and!.
  - eexists. split_and!; [vm_compute; reflexivity | reflexivity ..].
  - eexists. split; vm_compute; reflexivity.
  - vm_compute. reflexivity.
  - vm_compute. reflexivity.
  - eexists. split; vm_compute; reflexivity.
Qed.

(** ** The exit listener and the grace window *)

Lemma get_overwrite (s : Manager) (n : string) (l : loc) (p' : RunningProcess) :
  runningProcesses s !! n = Some l ->
  get n (with_store (<[l := p']>) s) = Some (l, p').
Proof. intros Hn. unfold get. simpl. by rewrite Hn, lookup_insert_eq. Qed.

Lemma get_setTimeout (n : string) (t : Task) (delay : Z) (s : Manager) :
  get n (setTimeout t delay s) = get n s.
Proof. done. Qed.



(** No task puts a name into the map. *)
Lemma runTask_absent (n : string) (t : Task) (s : Manager) :
  runningProcesses s !! n = None -> runningProcesses (runTask t s) !! n = None.
Proof.
  intros Hn. destruct t as [n' l' | n']; simpl.
  - unfold startDaemon_resume.
    destruct (store s !! l') as [p' |]; [| done].
    destruct (killed (process p') || bool_decide _); simpl; [| done].
    rewrite lookup_delete. by case_decide.
  - rewrite lookup_delete. by case_decide.
Qed.

Lemma runTasks_absent (n : string) (due : list (Z * Task)) (s : Manager) :
  runningProcesses s !! n = None ->
  runningProcesses (foldl (fun s' x => runTask x.2 s') s due) !! n = None.
Proof.
  revert s. induction due as [| x due IH]; intros s Hn; simpl; [done |].
  by apply IH, runTask_absent.
Qed.

Lemma runTasks_purge (n : string) (t : Z) (due : list (Z * Task)) (s : Manager) :
  In (t, Purge n) due ->
  runningProcesses (foldl (fun s' x => runTask x.2 s') s due) !! n = None.
Proof.
  revert s. induction due as [| x due IH]; intros s Hin; simpl; [done |].
  destruct Hin as [-> | Hin]; [| by apply IH].
  apply runTasks_absent. simpl. apply lookup_delete_eq.
Qed.


(** A daemon that is alive when [startDaemon] resumes becomes [RUNNING] and
    gets its ['exit'] and ['error'] listeners; the call returns the PID. *)
Lemma startDaemon_resume_alive (s : Manager) (n : string) (l : loc)
  (p : RunningProcess) :
  store s !! l = Some p ->
  killed (process p) = false -> exitCode (process p) = None ->
  exists p',
    startDaemon_resume n l s
    = Some ({| success := true;
               message := "Started daemon '" +:+ n +:+ "' (PID: "
                          +:+ pretty (child_pid (process p)) +:+ ")" |},
            with_store (<[l := p']>) s)
    /\ state p' = RUNNING
    /\ exit_listener (process p') = Some n
    /\ error_listener (process p') = Some n
    /\ outputBuffer p' = outputBuffer p.
Proof.
  intros Hl Hk He. unfold startDaemon_resume. rewrite Hl, Hk, He. simpl.
  eexists. split; [reflexivity |]. done.
Qed.



(** ** One-shot commands *)

Import ToolExecutor.

Lemma truthy_opt_default (o : option string) :
  truthy_opt o = JS.truthy (default "" o).
Proof. by destruct o. Qed.

(** What the [catch] block of [runCommand] builds behind its first
    statement: the partial output, behind the exit-code line when the error
    carries a code, or else the error's text when there is none. *)
Lemma failureResult_output (e : ExecError) :
  failureResult e
  = {| success := false;
       output :=
         JS.or_else
           match error_code e with
           | CodeUndefined => partialOutput e
           | c => "Command failed with exit code " +:+ code_text c +:+ ":"
                  +:+ JS.nl +:+ partialOutput e
           end
           ("Failed to run command: " +:+ error_message e) |}.
Proof.
  unfold failureResult, partialOutput. rewrite !truthy_opt_default.
  set (out := default "" (error_stdout e)). set (err := default "" (error_stderr e)).
  assert (Hcap :
    (if JS.truthy err
     then (if JS.truthy out then "" +:+ out else "")
          +:+ (if JS.truthy (if JS.truthy out then "" +:+ out else "")
               then JS.nl +:+ err else err)
     else if JS.truthy out then "" +:+ out else "")
    = (if decide (out = "") then err
       else if decide (err = "") then out else out +:+ JS.nl +:+ err)).
  { change ("" +:+ out) with out.
    destruct (decide (out = "")) as [-> | Hout].
    - simpl. destruct (JS.truthy err) eqn:He; [done |].
      by apply truthy_false in He.
    - rewrite (proj2 (truthy_true out) Hout). rewrite (proj2 (truthy_true out) Hout).
      destruct (decide (err = "")) as [-> | Herr]; [done |].
      by rewrite (proj2 (truthy_true err) Herr). }
  rewrite Hcap. reflexivity.
Qed.

(** When [exec] resolves, [runCommand] returns a success: the standard
    output, followed by a section headed [Stderr:] when the standard error
    has text, and a fixed text when both are empty. *)
Lemma runCommand_resolves (command out err : string) :
  runCommand command (ExecResolves out err)
  = Returns {| success := true;
               output := if decide (err = "")
                         then (if decide (out = "")
                               then "Command completed successfully" else out)
                         else out +:+ JS.nl +:+ "Stderr:" +:+ JS.nl +:+ err |}.
Proof.
  unfold runCommand. f_equal. f_equal.
  destruct (decide (err = "")) as [-> | Herr].
  - simpl. unfold JS.or_else.
    destruct (decide (out = "")) as [-> | Hout]; [done |].
    by rewrite (proj2 (truthy_true out) Hout).
  - rewrite (proj2 (truthy_true err) Herr).
    apply or_else_nonempty.
    destruct out; [| done]. simpl. discriminate.
Qed.

(** The methods of [logger] that the manager and the executor call,
    [warning] apart, are methods it has. *)
Lemma logger_methods_called :
  Logger.call "debug" = None /\ Logger.call "info" = None
  /\ Logger.call "warn" = None /\ Logger.call "error" = None.
Proof. by vm_compute. Qed.

(** C9, as the code has it. When [exec] rejects, the [catch] block of
    [runCommand] calls [logger.warning], which the logger does not have: a
    [TypeError] leaves [runCommand] before any output is built, for every
    command and every error. [executeTool] catches it and answers with
    that error's message; for [exit 3] with [partial] on the standard
    output the answer has neither the exit code nor the partial output that
    the rest of the [catch] block would have given. *)
Theorem C9_failed_command_throws_at_logger_warning (command : string)
  (e : ExecError) :
  runCommand command (ExecRejects e) = Throws "logger.warning is not a function"
  /\ (forall projectRoot toolName name description args sp k toISO s,
        executeTool projectRoot
          (Some (mkToolConfig name description command (Some false)))
          toolName args (ToolExecutor.mkHost sp k (ExecRejects e) toISO) s
        = (ProcessManager.Return
             {| success := false;
                output := "Error executing tool: logger.warning is not a function" |},
           s))
  /\ output (failureResult
               (mkExecError "Command failed: exit 3" (Some "partial") (Some "")
                  (CodeNumber 3)))
     = "Command failed with exit code 3:" +:+ JS.nl +:+ "partial".
Proof.
  split_and!.
  - reflexivity.
  - intros. reflexivity.
  - vm_compute. reflexivity.
Qed.

(** ** The dispatcher *)

Lemma prefix_refl (v : string) : String.prefix v v = true.
Proof.
  induction v as [| c v IH]; simpl; [done |].
  destruct (Ascii.ascii_dec c c); [done | congruence].
Qed.

Lemma skip_all (v : string) : JS.skip (String.length v) v = "".
Proof. induction v as [| c v IH]; simpl; done. Qed.

(** [replace] removes a trailing [suffix] when [suffix] does not occur
    earlier in the string. *)
Lemma replace_trailing (base suffix : string) :
  (forall i, (i < String.length base)%nat ->
             String.prefix suffix (JS.skip i (base +:+ suffix)) = false) ->
  JS.replace (base +:+ suffix) suffix "" = base.
Proof.
  induction base as [| c base IH]; intros Hno.
  - change ("" +:+ suffix) with suffix.
    destruct suffix as [| d suffix]; [done |].
    cbn [JS.replace]. rewrite prefix_refl, skip_all. done.
  - change (String c base +:+ suffix) with (String c (base +:+ suffix)).
    cbn [JS.replace].
    specialize (Hno 0%nat) as H0. cbn [JS.skip] in H0.
    change (String c base +:+ suffix) with (String c (base +:+ suffix)) in H0.
    rewrite H0 by (simpl; lia).
    f_equal. apply IH. intros i Hi.
    specialize (Hno (S i)). cbn [JS.skip] in Hno.
    change (String c base +:+ suffix) with (String c (base +:+ suffix)) in Hno.
    cbn [JS.skip] in Hno. apply Hno. simpl. lia.
Qed.

(** Without a configuration and without a reserved suffix, the tool is
    unknown. *)
Lemma executeTool_unknown (projectRoot toolName : string) (args : option Args)
  (host : Host) (s : Manager) :
  JS.endsWith toolName "_start" = false ->
  JS.endsWith toolName "_status" = false ->
  JS.endsWith toolName "_stop" = false ->
  JS.endsWith toolName "_logs" = false ->
  executeTool projectRoot None toolName args host s
  = (Return {| success := false; output := "Unknown tool: " +:+ toolName |}, s).
Proof. intros H1 H2 H3 H4. unfold executeTool. by rewrite H1, H2, H3, H4. Qed.

(** C7, as the code has it: the tool [my_logs_server_logs] of the daemon
    [my_logs_server] ends in [_logs], but [replace] removes the first
    [_logs], so the dispatcher asks for the logs of [my_server_logs] and
    reports the running daemon as not running. *)
Theorem C7_replace_removes_first_occurrence (host : Host) :
  JS.endsWith "my_logs_server_logs" "_logs" = true
  /\ JS.replace "my_logs_server_logs" "_logs" "" = "my_server_logs"
  /\ is_Some (ProcessManager.getProcessLogs "my_logs_server" 50 logs_server)
  /\ executeTool "/srv" None "my_logs_server_logs" None host logs_server
     = (Return {| success := false;
                  output := "Daemon 'my_server_logs' is not running or has no logs" |},
        logs_server).
Proof.
  split_and!.
  - vm_compute. reflexivity.
  - vm_compute. reflexivity.
  - vm_compute. by eexists.
  - vm_compute. reflexivity.
Qed.

(** * Further properties *)

(** ** The lines of a chunk of output *)

Lemma prefix_skip_length (w v : string) :
  String.prefix w v = true ->
  (String.length (JS.skip (String.length w) v) + String.length w
   = String.length v)%nat.
Proof.
  revert v. induction w as [| a w IH]; intros v; simpl.
  - intros _. lia.
  - destruct v as [| b v]; [done |]. simpl.
    destruct (Ascii.ascii_dec a b); [| done]. intros H. specialize (IH v H). lia.
Qed.

Lemma dropPrefixOf_shorter (ws : list string) (v rest : string) :
  Forall (fun w => w <> "") ws ->
  JS.dropPrefixOf ws v = Some rest ->
  (String.length rest < String.length v)%nat.
Proof.
  induction 1 as [| w ws Hw _ IH]; simpl; [done |].
  destruct (String.prefix w v) eqn:Hp; [| exact IH].
  intros ?; simplify_eq. pose proof (prefix_skip_length w v Hp).
  destruct w; [done |]. simpl in *. lia.
Qed.

Lemma dropSpace_shorter (v rest : string) :
  JS.dropSpace v = Some rest -> (String.length rest < String.length v)%nat.
Proof.
  apply dropPrefixOf_shorter. unfold JS.whiteSpace. simpl.
  repeat constructor; discriminate.
Qed.

(** With fuel for every byte, [trimStart] stops where no white space
    leads. *)
Lemma trimStart_from_done (fuel : nat) (v : string) :
  (String.length v <= fuel)%nat -> JS.dropSpace (JS.trimStart_from fuel v) = None.
Proof.
  revert v. induction fuel as [| fuel IH]; intros v Hlen.
  - destruct v; [reflexivity | simpl in Hlen; lia].
  - cbn [JS.trimStart_from]. destruct (JS.dropSpace v) as [rest |] eqn:Hd; [| done].
    apply IH. pose proof (dropSpace_shorter v rest Hd). lia.
Qed.

Lemma trimStart_from_fixed (fuel : nat) (v : string) :
  JS.dropSpace v = None -> JS.trimStart_from fuel v = v.
Proof. intros Hd. destruct fuel; [done |]. cbn [JS.trimStart_from]. by rewrite Hd. Qed.

Lemma trimStart_idem (v : string) : JS.trimStart (JS.trimStart v) = JS.trimStart v.
Proof.
  unfold JS.trimStart at 1. apply trimStart_from_fixed.
  by apply trimStart_from_done.
Qed.

Lemma not_blank_nonempty (v : string) : blank v = false -> v <> "".
Proof. by destruct v. Qed.

(** [line.trim()] is truthy exactly when the line is not made of white
    space only. *)
Lemma truthy_trim (v : string) : JS.truthy (JS.trim v) = negb (blank v).
Proof.
  unfold JS.trim, blank, JS.whiteOnly.
  destruct (String.eqb_spec (JS.trimStart v) "") as [-> | Hne]; [reflexivity |].
  pose proof (trimStart_idem v) as Hid.
  destruct (JS.trimStart v) as [| c t] eqn:Ht; [done |].
  cbn [JS.trimEnd]. unfold JS.whiteOnly. rewrite Hid. reflexivity.
Qed.

Lemma split_nl_nonempty (v : string) : JS.split_nl v <> [].
Proof.
  destruct v as [| c v]; simpl; [done |].
  destruct (Ascii.eqb c "010"); [done |]. by destruct (JS.split_nl v).
Qed.

Lemma split_nl_no_line_feed (v : string) :
  Forall (fun piece => hasLineFeed piece = false) (JS.split_nl v).
Proof.
  induction v as [| c v IH]; simpl.
  - by repeat constructor.
  - destruct (Ascii.eqb c "010") eqn:Hc.
    + by constructor.
    + destruct (JS.split_nl v) as [| piece rest]; [by repeat constructor; simpl; rewrite Hc |].
      inversion IH; subst. constructor; [| done]. simpl. by rewrite Hc.
Qed.

(** [s.split('\n').join('\n')] is [s]. *)
Lemma join_split_nl (v : string) : JS.join JS.nl (JS.split_nl v) = v.
Proof.
  unfold JS.join. induction v as [| c v IH]; simpl; [done |].
  pose proof (split_nl_nonempty v) as Hne.
  destruct (Ascii.eqb_spec c "010") as [-> | Hc].
  - destruct (JS.split_nl v) as [| piece rest]; [done |].
    change (String.concat JS.nl ("" :: piece :: rest))
      with (String "010" (String.concat JS.nl (piece :: rest))).
    by rewrite IH.
  - destruct (JS.split_nl v) as [| piece rest]; [done |].
    rewrite <- IH. by destruct rest.
Qed.

Lemma list_filter_all {A} (f : A -> bool) (xs : list A) :
  Forall (fun x => f x = true) xs -> List.filter f xs = xs.
Proof.
  induction 1 as [| x xs Hx _ IH]; simpl; [done |]. by rewrite Hx, IH.
Qed.

Lemma dataLines_filter (data : string) :
  dataLines data = List.filter (fun piece => negb (blank piece)) (JS.split_nl data).
Proof. unfold dataLines. apply List.filter_ext. intros piece. apply truthy_trim. Qed.

Lemma dataLines_ok (data : string) :
  Forall (fun line => blank line = false /\ hasLineFeed line = false) (dataLines data).
Proof.
  rewrite dataLines_filter. apply List.Forall_forall. intros line Hin.
  apply List.filter_In in Hin as [Hin Hb]. split.
  - by apply negb_true_iff.
  - pose proof (split_nl_no_line_feed data) as Hall.
    rewrite List.Forall_forall in Hall. by apply Hall.
Qed.

(** A piece made of a no-break space alone is dropped, as [trim] makes it
    empty; a piece with a letter behind the no-break space is kept whole. *)
Example dataLines_unicode_blank :
  dataLines (JS.bytes [194; 160; 10; 122]%nat) = ["z"]
  /\ dataLines (JS.bytes [194; 160; 122; 10; 32; 226; 128; 168]%nat)
     = [JS.bytes [194; 160; 122]%nat].
Proof. split; vm_compute; reflexivity. Qed.

(** X1. The ['data'] listeners keep, in order and untrimmed, exactly the
    pieces between line feeds that have a character other than white
    space, white space being what [String.prototype.trim] removes: the
    WhiteSpace and LineTerminator code points of ECMAScript
    ([JS.whiteSpace]). A kept line has no line feed in it. And a chunk none
    of whose pieces is blank is what its kept lines give when joined by
    line feeds. *)
Theorem X1_data_lines_are_the_non_blank_pieces (data : string) :
  dataLines data = List.filter (fun piece => negb (blank piece)) (JS.split_nl data)
  /\ Forall (fun line => blank line = false /\ hasLineFeed line = false)
            (dataLines data)
  /\ (Forall (fun piece => blank piece = false) (JS.split_nl data) ->
      JS.join JS.nl (dataLines data) = data).
Proof.
  split_and!.
  - apply dataLines_filter.
  - apply dataLines_ok.
  - intros Hall. rewrite dataLines_filter, list_filter_all.
    + apply join_split_nl.
    + eapply Forall_impl; [exact Hall |]. intros piece Hb. simpl in Hb. by rewrite Hb.
Qed.

Lemma X1_data_lines_are_the_non_blank_pieces_witness :
  JS.join JS.nl (dataLines ("  listening" +:+ JS.nl +:+ "ready"))
  = "  listening" +:+ JS.nl +:+ "ready".
Proof.
  apply (proj2 (proj2 (X1_data_lines_are_the_non_blank_pieces
                         ("  listening" +:+ JS.nl +:+ "ready")))).
  vm_compute. repeat constructor.
Defined.

(** ** What every run keeps *)

Import ProcessManager.

Lemma in_schedule_inv (due : Z) (t : Task) (q : list (Z * Task)) (x : Z * Task) :
  In x (schedule due t q) -> x = (due, t) \/ In x q.
Proof.
  induction q as [| y q IH]; simpl.
  - intros [<- | []]. by left.
  - destruct (y.1 <=? due)%Z; simpl.
    + intros [<- | Hin]; [right; by left |]. destruct (IH Hin); auto.
    + intros [<- | [<- | Hin]]; auto.
Qed.

Lemma continues_refl (st : gmap loc RunningProcess) : continues st st.
Proof. intros l p Hl. by exists p. Qed.

Lemma continues_overwrite (st : gmap loc RunningProcess) (l : loc)
  (p p' : RunningProcess) :
  st !! l = Some p -> name p' = name p -> continues st (<[l := p']> st).
Proof.
  intros Hl Hname l0 p0 Hl0. rewrite lookup_insert. case_decide.
  - simplify_eq. by exists p'.
  - by exists p0.
Qed.

Lemma Consistent_frame (m : gmap string loc) (st : gmap loc RunningProcess)
  (q : list (Z * Task)) (t t' : Z) :
  Consistent (mkManager m st q t) -> Consistent (mkManager m st q t').
Proof. done. Qed.

Lemma Consistent_overwrite (s : Manager) (l : loc) (p p' : RunningProcess) :
  Consistent s -> store s !! l = Some p -> object_ok p' -> name p' = name p ->
  Consistent (with_store (<[l := p']>) s).
Proof.
  intros (Ho & Hm & Ht) Hl Hok Hname.
  pose proof (continues_overwrite (store s) l p p' Hl Hname) as Hc.
  split_and!; simpl.
  - intros l0 p0. rewrite lookup_insert. case_decide; [| by apply Ho].
    intros ?; by simplify_eq.
  - intros n0 l0 Hn. destruct (Hm n0 l0 Hn) as (p0 & Hp0 & Hn0).
    destruct (Hc l0 p0 Hp0) as (p1 & Hp1 & Hn1). exists p1. split; congruence.
  - intros due n0 l0 Hin. destruct (Ht due n0 l0 Hin) as (p0 & Hp0 & Hn0).
    destruct (Hc l0 p0 Hp0) as (p1 & Hp1 & Hn1). exists p1. split; congruence.
Qed.

Lemma Consistent_delete (s : Manager) (n : string) :
  Consistent s -> Consistent (with_map (delete n) s).
Proof.
  intros (Ho & Hm & Ht). split_and!; simpl; [done | | done].
  intros n0 l0. rewrite lookup_delete. case_decide; [done |]. apply Hm.
Qed.

Lemma Consistent_setTimeout_purge (s : Manager) (n : string) (delay : Z) :
  Consistent s -> Consistent (setTimeout (Purge n) delay s).
Proof.
  intros (Ho & Hm & Ht). split_and!; simpl; [done | done |].
  intros due n0 l0 Hin. apply in_schedule_inv in Hin as [Heq | Hin]; [done |].
  by eapply Ht.
Qed.

Lemma Consistent_object (s : Manager) (l : loc) (p : RunningProcess) :
  Consistent s -> store s !! l = Some p -> object_ok p.
Proof. intros (Ho & _ & _). apply Ho. Qed.

Lemma Consistent_get (s : Manager) (n : string) (l : loc) (p : RunningProcess) :
  Consistent s -> get n s = Some (l, p) -> name p = n.
Proof.
  intros (_ & Hm & _) Hg. apply get_Some_inv in Hg as [Hn Hl].
  destruct (Hm n l Hn) as (p0 & Hp0 & Hn0). congruence.
Qed.

Lemma addToBuffer_Forall (P : string -> Prop) (buffer : list string)
  (line : string) (cap : nat) :
  Forall P buffer -> P line -> Forall P (addToBuffer buffer line cap).
Proof.
  intros Hb Hl. change (addToBuffer buffer line cap) with (pushAll buffer [line] cap).
  apply pushAll_Forall; [done | by constructor].
Qed.

Lemma Consistent_init (t : Z) : Consistent (init t).
Proof.
  split_and!; simpl.
  - intros l p. by rewrite lookup_empty.
  - intros n l. by rewrite lookup_empty.
  - intros due n l [].
Qed.

Lemma Consistent_startDaemon (n command cwd : string) (sp : SpawnOutcome)
  (s : Manager) :
  Consistent s -> Consistent (startDaemon n command cwd sp s).2.
Proof.
  intros HC. unfold startDaemon.
  destruct (get n s) as [[l existing] |]; [done |].
  destruct sp as [err | p]; [done |]. simpl.
  destruct HC as (Ho & Hm & Ht).
  set (l := fresh (dom (store s))).
  assert (Hfresh : store s !! l = None) by apply not_elem_of_dom, is_fresh.
  assert (Hc : continues (store s)
                 (<[l := mkRunning n (mkChild p false None None [] None None) p (now s)
                           STARTING createOutputBuffer]> (store s))).
  { intros l0 p0 Hl0. exists p0. split; [| done].
    rewrite lookup_insert_ne; [done |]. intros <-. congruence. }
  split_and!; simpl.
  - intros l0 p0. rewrite lookup_insert. case_decide; [| by apply Ho].
    intros ?; simplify_eq. unfold object_ok. simpl. split_and!; done.
  - intros n0 l0. rewrite lookup_insert. case_decide.
    + intros ?; simplify_eq. rewrite lookup_insert_eq. by eexists.
    + intros Hn. destruct (Hm n0 l0 Hn) as (p0 & Hp0 & Hn0).
      destruct (Hc l0 p0 Hp0) as (p1 & Hp1 & Hn1). exists p1. split; congruence.
  - intros due n0 l0 Hin. apply in_schedule_inv in Hin as [Heq | Hin].
    + simplify_eq. rewrite lookup_insert_eq. by eexists.
    + destruct (Ht due n0 l0 Hin) as (p0 & Hp0 & Hn0).
      destruct (Hc l0 p0 Hp0) as (p1 & Hp1 & Hn1). exists p1. split; congruence.
Qed.

(** Resuming a [startDaemon] on the object that carries its name. *)
Lemma Consistent_startDaemon_resume (n : string) (l : loc) (s : Manager)
  (p : RunningProcess) (r : Result) (s' : Manager) :
  Consistent s -> store s !! l = Some p -> name p = n ->
  startDaemon_resume n l s = Some (r, s') -> Consistent s'.
Proof.
  intros HC Hl Hname. unfold startDaemon_resume. rewrite Hl.
  destruct (killed (process p) || bool_decide _); intros ?; simplify_eq.
  - by apply Consistent_delete.
  - eapply Consistent_overwrite; [done | done | | done].
    destruct (Consistent_object s l p HC Hl) as (H1 & H2 & H3 & H4 & H5 & H6 & H7).
    unfold object_ok. simpl. split_and!; try done.
    + intros n0 ?. by simplify_eq.
    + intros n0 ?. by simplify_eq.
Qed.

Lemma Consistent_stopDaemon (n : string) (o : KillOutcome) (s : Manager) :
  Consistent s -> Consistent (stopDaemon n o s).2.
Proof.
  intros HC. unfold stopDaemon.
  destruct (get n s) as [[l running] |] eqn:Hg; [| done].
  apply get_Some_inv in Hg as [_ Hl].
  destruct (Consistent_object s l running HC Hl) as (H1 & H2 & H3 & H4 & H5 & H6 & H7).
  destruct o as [| | err]; simpl; [| | done].
  - apply Consistent_delete. eapply Consistent_overwrite; [done | done | | done].
    unfold object_ok. simpl. split_and!; done.
  - apply Consistent_delete. eapply Consistent_overwrite; [done | done | | done].
    unfold object_ok. simpl. split_and!; done.
Qed.

Lemma Consistent_dataHandler (st : Stream) (l : loc) (data : string) (s : Manager) :
  Consistent s -> Consistent (dataHandler st l data s).
Proof.
  intros HC. unfold dataHandler.
  destruct (store s !! l) as [p |] eqn:Hl; [| done].
  destruct (Consistent_object s l p HC Hl) as (H1 & H2 & H3 & H4 & H5 & H6 & H7).
  eapply Consistent_overwrite; [done | done | | done].
  destruct st; unfold object_ok; simpl; split_and!; try done.
  - apply pushAll_Forall; [done | apply dataLines_ok].
  - apply pushAll_Forall; [done |].
    eapply Forall_impl; [apply dataLines_ok |]. by intros line [Hb _].
Qed.

Lemma Consistent_exitHandler (n : string) (code : option Z) (signal : option string)
  (s : Manager) :
  Consistent s -> Consistent (exitHandler n code signal s).
Proof.
  intros HC. unfold exitHandler.
  destruct (get n s) as [[l proc] |] eqn:Hg; [| done].
  apply get_Some_inv in Hg as [_ Hl].
  destruct (Consistent_object s l proc HC Hl) as (H1 & H2 & H3 & H4 & H5 & H6 & H7).
  apply Consistent_setTimeout_purge.
  eapply Consistent_overwrite; [done | done | | done].
  unfold object_ok. simpl. split_and!; try done.
  by case_bool_decide.
Qed.

Lemma Consistent_errorHandler (n errMessage : string) (s : Manager) :
  Consistent s -> Consistent (errorHandler n errMessage s).
Proof.
  intros HC. unfold errorHandler. apply Consistent_setTimeout_purge.
  destruct (get n s) as [[l proc] |] eqn:Hg; [| done].
  apply get_Some_inv in Hg as [_ Hl].
  destruct (Consistent_object s l proc HC Hl) as (H1 & H2 & H3 & H4 & H5 & H6 & H7).
  eapply Consistent_overwrite; [done | done | | done].
  unfold object_ok. simpl. split_and!; try done.
  by apply addToBuffer_Forall.
Qed.

Lemma Consistent_childExit (l : loc) (code : option Z) (signal : option string)
  (s : Manager) :
  Consistent s -> Consistent (childExit l code signal s).
Proof.
  intros HC. unfold childExit.
  destruct (store s !! l) as [p |] eqn:Hl; [| done].
  destruct (Consistent_object s l p HC Hl) as (H1 & H2 & H3 & H4 & H5 & H6 & H7).
  assert (HC' : Consistent
                  (with_store
                     (<[l := with_process
                               (mkChild (child_pid (process p)) (killed (process p))
                                  code signal (signals (process p))
                                  (exit_listener (process p))
                                  (error_listener (process p))) p]>) s)).
  { eapply Consistent_overwrite; [done | done | | done].
    unfold object_ok. simpl. split_and!; done. }
  destruct (exit_listener (process p)); [| done].
  by apply Consistent_exitHandler.
Qed.

Lemma Consistent_childError (l : loc) (errMessage : string) (s : Manager) :
  Consistent s -> Consistent (default s (childError l errMessage s)).
Proof.
  intros HC. unfold childError.
  destruct (store s !! l) as [p |]; [| done].
  destruct (error_listener (process p)); [| done].
  by apply Consistent_errorHandler.
Qed.

Lemma runTask_continues (t : Task) (s : Manager) :
  continues (store s) (store (runTask t s)).
Proof.
  destruct t as [n l | n]; simpl; [| apply continues_refl].
  unfold startDaemon_resume.
  destruct (store s !! l) as [p |] eqn:Hl; [| apply continues_refl].
  destruct (killed (process p) || bool_decide _); simpl; [apply continues_refl |].
  by eapply continues_overwrite.
Qed.

Lemma Consistent_runTasks (due : list (Z * Task)) (s : Manager) :
  Consistent s ->
  (forall t n l, In (t, ResumeStart n l) due ->
                 exists p, store s !! l = Some p /\ name p = n) ->
  Consistent (foldl (fun s' x => runTask x.2 s') s due).
Proof.
  revert s. induction due as [| [t task] due IH]; intros s HC Hdue; simpl; [done |].
  apply IH.
  - destruct task as [n l | n]; simpl.
    + destruct (Hdue t n l) as (p & Hl & Hname); [by left |].
      destruct (startDaemon_resume n l s) as [[r s'] |] eqn:Hr; [| done].
      by eapply Consistent_startDaemon_resume.
    + by apply Consistent_delete.
  - intros t0 n0 l0 Hin. destruct (Hdue t0 n0 l0) as (p & Hl & Hname); [by right |].
    destruct (runTask_continues task s l0 p Hl) as (p' & Hl' & Hname').
    exists p'. split; congruence.
Qed.

Lemma Consistent_advance (d : Z) (s : Manager) : Consistent s -> Consistent (advance d s).
Proof.
  intros (Ho & Hm & Ht). unfold advance. apply Consistent_runTasks.
  - split_and!; simpl; [done | done |].
    intros due n l Hin. apply List.filter_In in Hin as [Hin _]. by eapply Ht.
  - simpl. intros t n l Hin. apply List.filter_In in Hin as [Hin _]. by eapply Ht.
Qed.

(** Every reachable manager is consistent. *)
Lemma reachable_Consistent (s : Manager) : reachable s -> Consistent s.
Proof.
  induction 1 as [t | e s _ IH].
  - apply Consistent_init.
  - destruct e; simpl.
    + by apply Consistent_startDaemon.
    + by apply Consistent_stopDaemon.
    + by apply Consistent_dataHandler.
    + by apply Consistent_childExit.
    + by apply Consistent_childError.
    + by apply Consistent_advance.
Qed.

Lemma running_server_reachable : reachable running_server.
Proof.
  exact (reachable_step (Advance 1000) _
           (reachable_step (Start "server" "node server.js" "/srv" (Spawned 4242)) _
              (reachable_init 0))).
Qed.

Lemma logging_server_reachable : reachable logging_server.
Proof.
  exact (reachable_step (Data Stderr 0%nat ("boom" +:+ JS.nl +:+ "bang" +:+ JS.nl)) _
           running_server_reachable).
Qed.

(** X2. In every manager that a run of calls, child events and timers leads
    to, a name of the map refers to an object that carries this name, whose
    PID is that of its child, whose buffers have the capacity 1000 and hold
    at most 1000 lines each, none of them blank, and the lines from the
    standard output without a line feed; and its exit and error listeners,
    if registered, captured this name. *)
Theorem X2_reachable_entries_are_in_order (s : Manager) (n : string) (l : loc)
  (Hreach : reachable s)
  (Hname : runningProcesses s !! n = Some l) :
  exists p,
    get n s = Some (l, p)
    /\ name p = n
    /\ pid p = child_pid (process p)
    /\ maxLines (outputBuffer p) = 1000%nat
    /\ (length (stdout (outputBuffer p)) <= 1000)%nat
    /\ (length (stderr (outputBuffer p)) <= 1000)%nat
    /\ Forall (fun line => blank line = false /\ hasLineFeed line = false)
              (stdout (outputBuffer p))
    /\ Forall (fun line => blank line = false) (stderr (outputBuffer p))
    /\ (forall n', exit_listener (process p) = Some n' -> n' = n)
    /\ (forall n', error_listener (process p) = Some n' -> n' = n).
Proof.
  pose proof (reachable_Consistent s Hreach) as HC.
  pose proof (reachable_Inv s Hreach) as HI.
  destruct HC as (Ho & Hm & Ht).
  destruct (Hm n l Hname) as (p & Hl & Hn).
  destruct (Ho l p Hl) as (H1 & H2 & H3 & H4 & H5 & H6 & H7).
  destruct (Inv_buffer s l p HI Hl) as (_ & _ & Hlo & Hle).
  rewrite H1 in Hlo, Hle. unfold MAX_OUTPUT_LINES in *.
  exists p. split_and!; try done.
  - unfold get. by rewrite Hname, Hl.
  - intros n' Hn'. rewrite <- Hn. by apply H3.
  - intros n' Hn'. rewrite <- Hn. by apply H4.
Qed.

Lemma X2_reachable_entries_are_in_order_witness :
  exists p,
    get "server" logging_server = Some (0%nat, p)
    /\ name p = "server"
    /\ (length (stderr (outputBuffer p)) <= 1000)%nat.
Proof.
  destruct (X2_reachable_entries_are_in_order logging_server "server" 0%nat)
    as (p & Hg & Hn & _ & _ & _ & Hle & _).
  - exact logging_server_reachable.
  - vm_compute. reflexivity.
  - exists p. split_and!; [exact Hg | exact Hn | exact Hle].
Defined.

(** ** The status snapshot *)

(** X3. For a name with an entry, [getProcessStatus] reports the entry's
    name, PID, state and start time; the recent output is the last 10 lines
    of the standard output followed by the last 5 lines of the standard
    error, each of these behind [[stderr] ], so at most 15 lines; and the
    uptime is the whole number of seconds since the start. *)
Theorem X3_status_snapshot (s : Manager) (n : string) (l : loc)
  (proc : RunningProcess)
  (Hentry : get n s = Some (l, proc)) :
  let out := stdout (outputBuffer proc) in
  let err := stderr (outputBuffer proc) in
  exists st,
    getProcessStatus n s = Some st
    /\ status_name st = name proc
    /\ status_pid st = pid proc
    /\ status_state st = state proc
    /\ status_startTime st = startTime proc
    /\ recentOutput st
       = drop (length out - 10) out
         ++ List.map (fun line => "[stderr] " +:+ line) (drop (length err - 5) err)
    /\ length (recentOutput st) = (Nat.min 10 (length out) + Nat.min 5 (length err))%nat
    /\ (length (recentOutput st) <= 15)%nat
    /\ 1000 * uptime st <= now s - startTime proc < 1000 * uptime st + 1000.
Proof.
  intros out err. unfold getProcessStatus. rewrite Hentry.
  eexists. split; [reflexivity |].
  cbn [status_name status_pid status_state status_startTime recentOutput uptime].
  assert (Hout : JS.slice (-10) out = drop (length out - 10) out)
    by (apply (slice_last 10); lia).
  assert (Herr : JS.slice (-5) err = drop (length err - 5) err)
    by (apply (slice_last 5); lia).
  fold out err. rewrite Hout, Herr.
  split_and!; try done.
  - rewrite length_app, length_map, !length_drop. lia.
  - rewrite length_app, length_map, !length_drop. lia.
  - pose proof (Z.mul_div_le (now s - startTime proc) 1000). lia.
  - pose proof (Z.mul_succ_div_gt (now s - startTime proc) 1000). lia.
Qed.

Lemma X3_status_snapshot_witness :
  exists st,
    getProcessStatus "server" logging_server = Some st
    /\ recentOutput st = ["[stderr] boom"; "[stderr] bang"]
    /\ uptime st = 1.
Proof.
  destruct (X3_status_snapshot logging_server "server" 0%nat
              (mkRunning "server"
                 (mkChild 4242 false None None [] (Some "server") (Some "server"))
                 4242 0 RUNNING (mkBuffer [] ["boom"; "bang"] 1000)))
    as (st & Hst & _ & _ & _ & _ & Hrecent & _ & _ & Hlow & Hhigh).
  - vm_compute. reflexivity.
  - exists st. split_and!; [exact Hst | exact Hrecent |].
    change (now logging_server) with 1000 in Hlow, Hhigh. simpl in Hlow, Hhigh. lia.
Defined.

(** ** A daemon from start to stop *)

Lemma advance_single_waiting (s : Manager) (due : Z) (task : Task) (d : Z) :
  timers s = [(due, task)] -> now s + d < due ->
  advance d s = mkManager (runningProcesses s) (store s) [(due, task)] (now s + d).
Proof.
  intros Hq Hd. unfold advance. rewrite Hq. simpl.
  by rewrite (proj2 (Z.leb_gt due (now s + d)) Hd).
Qed.

Lemma advance_single_due (s : Manager) (due : Z) (task : Task) (d : Z) :
  timers s = [(due, task)] -> due <= now s + d ->
  advance d s = runTask task (mkManager (runningProcesses s) (store s) [] (now s + d)).
Proof.
  intros Hq Hd. unfold advance. rewrite Hq. simpl.
  by rewrite (proj2 (Z.leb_le due (now s + d)) Hd).
Qed.

(** X4. On a manager with no timer waiting, start a daemon under a free
    name, with a [spawn] that succeeds and a child that lives. Until 1000 ms
    have passed the entry is [STARTING] and [isDaemonRunning] is false; at
    1000 ms it is [RUNNING] with the child's PID, an uptime of one second
    and no output, and [isDaemonRunning] is true. A [stopDaemon] whose
    [kill] returns then succeeds with the PID in its message, after which
    the status is [null], [isDaemonRunning] is false, and another
    [stopDaemon] answers that the daemon is not running. *)
Theorem X4_start_run_stop (s : Manager) (n command cwd : string) (p : Z)
  (Hfree : runningProcesses s !! n = None)
  (Hidle : timers s = []) :
  let started := startDaemon n command cwd (Spawned p) s in
  let s1 := started.2 in
  let s2 := advance 1000 s1 in
  (exists l, started.1 = Await l)
  /\ (forall d, 0 <= d < 1000 ->
        isDaemonRunning n (advance d s1) = false
        /\ exists st, getProcessStatus n (advance d s1) = Some st
                      /\ status_state st = STARTING
                      /\ status_pid st = p
                      /\ uptime st = 0)
  /\ isDaemonRunning n s2 = true
  /\ (exists st, getProcessStatus n s2 = Some st
                 /\ status_name st = n
                 /\ status_state st = RUNNING
                 /\ status_pid st = p
                 /\ uptime st = 1
                 /\ recentOutput st = [])
  /\ timers s2 = []
  /\ (forall o, o = KillDelivered \/ o = KillNoProcess ->
        let stopped := stopDaemon n o s2 in
        stopped.1 = {| success := true;
                       message := "Stopped daemon '" +:+ n +:+ "' (PID: "
                                  +:+ pretty p +:+ ")" |}
        /\ isDaemonRunning n stopped.2 = false
        /\ getProcessStatus n stopped.2 = None
        /\ forall o', (stopDaemon n o' stopped.2).1
                      = {| success := false;
                           message := "Daemon '" +:+ n +:+ "' is not running" |}).
Proof.
  intros started s1 s2. subst s2 s1 started.
  unfold startDaemon. rewrite (get_None n s Hfree). cbn [fst snd].
  set (l := fresh (dom (store s))).
  set (child := mkChild p false None None [] None None).
  set (rp := mkRunning n child p (now s) STARTING createOutputBuffer).
  set (s1 := setTimeout (ResumeStart n l) 1000 _).
  assert (Hq1 : timers s1 = [(now s + 1000, ResumeStart n l)]).
  { unfold s1, setTimeout. simpl. by rewrite Hidle. }
  assert (Hnow1 : now s1 = now s) by done.
  assert (Hg1 : get n s1 = Some (l, rp)).
  { unfold get, s1. simpl. by rewrite !lookup_insert_eq. }
  pose proof (get_Some_inv _ _ _ _ Hg1) as [Hn1 Hl1].
  split; [by exists l |]. split.
  { intros d Hd.
    rewrite (advance_single_waiting s1 _ _ d Hq1) by (rewrite Hnow1; lia).
    assert (Hg : get n (mkManager (runningProcesses s1) (store s1)
                          [(now s + 1000, ResumeStart n l)] (now s1 + d))
                 = Some (l, rp)) by exact Hg1.
    split.
    - unfold isDaemonRunning. by rewrite Hg.
    - unfold getProcessStatus. rewrite Hg. eexists. split; [reflexivity |].
      cbn [status_state status_pid uptime now]. split_and!; try done.
      simpl startTime. rewrite Hnow1.
      replace (now s + d - now s) with d by lia.
      apply Z.div_small. lia. }
  rewrite (advance_single_due s1 _ _ 1000 Hq1) by (rewrite Hnow1; lia).
  cbn [runTask]. unfold startDaemon_resume. cbn [store]. rewrite Hl1.
  cbn [process rp child killed exitCode orb]. rewrite bool_decide_eq_false_2 by (by intros H; apply H).
  set (rp' := with_process _ _).
  set (s2 := with_store _ _).
  assert (Hg2 : get n s2 = Some (l, rp')).
  { unfold get, s2, with_store. cbn [runningProcesses store].
    by rewrite Hn1, lookup_insert_eq. }
  split; [| split; [| split]].
  - unfold isDaemonRunning. by rewrite Hg2.
  - unfold getProcessStatus. rewrite Hg2. eexists. split; [reflexivity |].
    cbn [status_name status_state status_pid uptime recentOutput].
    split_and!; try done.
    unfold s2. simpl.
    replace (now s + 1000 - now s) with 1000 by lia. done.
  - done.
  - intros o Ho. cbn zeta.
    assert (Hk : exists b c', kill SIGTERM o (process rp') = inr (b, c')).
    { destruct Ho as [-> | ->]; simpl; by eexists _, _. }
    destruct Hk as (b & c' & Hk).
    assert (Hstop : stopDaemon n o s2
                    = ({| success := true;
                          message := "Stopped daemon '" +:+ n +:+ "' (PID: "
                                     +:+ pretty p +:+ ")" |},
                       with_map (delete n)
                         (with_store (<[l := with_process c' rp']>) s2))).
    { unfold stopDaemon. by rewrite Hg2, Hk. }
    rewrite Hstop. cbn [fst snd].
    set (s3 := with_map _ _).
    assert (Hg3 : get n s3 = None) by apply get_delete.
    split_and!.
    + done.
    + unfold isDaemonRunning. by rewrite Hg3.
    + by apply getProcessStatus_None.
    + intros o'. unfold stopDaemon. by rewrite Hg3.
Qed.

Lemma X4_start_run_stop_witness :
  isDaemonRunning "server" running_server = true
  /\ (stopDaemon "server" KillDelivered running_server).1
     = {| success := true; message := "Stopped daemon 'server' (PID: 4242)" |}.
Proof.
  destruct (X4_start_run_stop (init 0) "server" "node server.js" "/srv" 4242)
    as (_ & _ & Hrun & _ & _ & Hstop).
  - vm_compute. reflexivity.
  - reflexivity.
  - split; [exact Hrun |].
    destruct (Hstop KillDelivered (or_introl eq_refl)) as (Hr & _).
    etrans; [exact Hr |]. vm_compute. reflexivity.
Defined.

(** ** Restarting under the same name *)

(** X5. The exit listener finds its entry by name. When the name has been
    given to a later run in the meantime, the end of the earlier child sets
    the state of the later run, whose own child has not ended, and
    schedules the removal of the name; 5000 ms later the later run is out
    of the map. *)
Theorem X5_exit_of_earlier_child_hits_later_run (s : Manager) (n : string)
  (l1 l2 : loc) (p1 p2 : RunningProcess) (code : option Z) (signal : option string)
  (Hearlier : store s !! l1 = Some p1)
  (Hlistener : exit_listener (process p1) = Some n)
  (Hlater : get n s = Some (l2, p2))
  (Hdistinct : l1 <> l2) :
  let s' := childExit l1 code signal s in
  get n s' = Some (l2, with_state (terminalState code) p2)
  /\ process (with_state (terminalState code) p2) = process p2
  /\ isDaemonRunning n s' = false
  /\ timers s' = schedule (now s + 5000) (Purge n) (timers s)
  /\ (forall d, 5000 <= d -> runningProcesses (advance d s') !! n = None).
Proof.
  pose proof (get_Some_inv _ _ _ _ Hlater) as [Hn Hl2].
  intros s'. subst s'. unfold childExit. rewrite Hearlier, Hlistener.
  set (s1 := with_store _ s).
  assert (Hg1 : get n s1 = Some (l2, p2)).
  { unfold get, s1, with_store. cbn [runningProcesses store].
    rewrite Hn. rewrite lookup_insert_ne by done. by rewrite Hl2. }
  unfold exitHandler. rewrite Hg1.
  set (s2 := with_store _ s1).
  assert (Hg2 : get n (setTimeout (Purge n) 5000 s2)
                = Some (l2, with_state (terminalState code) p2)).
  { rewrite get_setTimeout. apply get_overwrite.
    unfold s1, with_store. by cbn [runningProcesses]. }
  split_and!.
  - exact Hg2.
  - done.
  - unfold isDaemonRunning. rewrite Hg2. unfold terminalState. cbn [with_state state].
    apply bool_decide_eq_false_2. by case_bool_decide.
  - done.
  - intros d Hd. unfold advance. apply runTasks_purge with (t := now s + 5000).
    apply List.filter_In. split.
    + simpl. apply in_schedule.
    + simpl. apply Z.leb_le. lia.
Qed.

Lemma X5_exit_of_earlier_child_hits_later_run_witness :
  exists p,
    get "server" (childExit 0%nat None (Some "SIGTERM") restarted_server)
    = Some (1%nat, p)
    /\ state p = FAILED
    /\ pid p = 4300
    /\ exitCode (process p) = None.
Proof.
  eexists. split.
  - refine (proj1 (X5_exit_of_earlier_child_hits_later_run restarted_server "server"
                     0%nat 1%nat _ _ None (Some "SIGTERM") _ _ _ _)).
    + vm_compute. reflexivity.
    + reflexivity.
    + vm_compute. reflexivity.
    + discriminate.
  - split_and!; reflexivity.
Defined.

Lemma in_schedule_old (due : Z) (t : Task) (q : list (Z * Task)) (x : Z * Task) :
  In x q -> In x (schedule due t q).
Proof.
  induction q as [| y q IH]; simpl; [done |].
  intros [<- | Hin]; destruct (y.1 <=? due)%Z; simpl; auto.
Qed.

(** No task signals a child or records its end. *)
Lemma runTask_child (t : Task) (s : Manager) (l : loc) (p : RunningProcess) :
  store s !! l = Some p ->
  exists p',
    store (runTask t s) !! l = Some p'
    /\ killed (process p') = killed (process p)
    /\ exitCode (process p') = exitCode (process p)
    /\ signals (process p') = signals (process p).
Proof.
  intros Hl. destruct t as [n0 l0 | n0]; simpl; [| by exists p].
  unfold startDaemon_resume.
  destruct (store s !! l0) as [p0 |] eqn:Hl0; [| by exists p].
  destruct (killed (process p0) || bool_decide _); simpl; [by exists p |].
  rewrite lookup_insert. case_decide; [| by exists p].
  simplify_eq. by eexists.
Qed.

Lemma runTasks_child (due : list (Z * Task)) (s : Manager) (l : loc)
  (p : RunningProcess) :
  store s !! l = Some p ->
  exists p',
    store (foldl (fun s' x => runTask x.2 s') s due) !! l = Some p'
    /\ killed (process p') = killed (process p)
    /\ exitCode (process p') = exitCode (process p)
    /\ signals (process p') = signals (process p).
Proof.
  revert s p. induction due as [| x due IH]; intros s p Hl; simpl; [by exists p |].
  destruct (runTask_child x.2 s l p Hl) as (p1 & Hl1 & Hk & He & Hs).
  destruct (IH _ p1 Hl1) as (p2 & Hl2 & Hk2 & He2 & Hs2).
  exists p2. split_and!; congruence.
Qed.

(** X6. The removal that the exit and error listeners schedule is by name.
    If such a removal is still waiting when the name is free again, and the
    daemon is started anew, the removal takes the new entry out of the map
    when it comes due, although the new child is alive and was sent no
    signal. *)
Theorem X6_waiting_purge_removes_later_run (s : Manager) (n command cwd : string)
  (p due d : Z)
  (Hfree : runningProcesses s !! n = None)
  (Hwaiting : In (due, Purge n) (timers s))
  (Hdue : due <= now s + d) :
  let started := startDaemon n command cwd (Spawned p) s in
  exists l,
    started.1 = Await l
    /\ get n started.2
       = Some (l, mkRunning n (mkChild p false None None [] None None) p (now s)
                    STARTING createOutputBuffer)
    /\ runningProcesses (advance d started.2) !! n = None
    /\ exists p',
         store (advance d started.2) !! l = Some p'
         /\ killed (process p') = false
         /\ exitCode (process p') = None
         /\ signals (process p') = [].
Proof.
  intros started. subst started.
  destruct (startDaemon_spawned s n command cwd p (get_None n s Hfree))
    as (l & s1 & Hs & _ & Hg & _ & Hnow).
  pose proof (get_Some_inv _ _ _ _ Hg) as [_ Hl].
  assert (Hq : timers s1 = schedule (now s + 1000) (ResumeStart n l) (timers s)).
  { unfold startDaemon in Hs. rewrite (get_None n s Hfree) in Hs. by simplify_eq. }
  rewrite Hs. cbn [fst snd]. exists l. split_and!; [done | done | |].
  - unfold advance. apply runTasks_purge with (t := due).
    apply List.filter_In. split.
    + rewrite Hq. by apply in_schedule_old.
    + simpl. apply Z.leb_le. lia.
  - unfold advance.
    destruct (runTasks_child
                (List.filter (fun x => (x.1 <=? now s1 + d)%Z) (timers s1))
                (mkManager (runningProcesses s1) (store s1)
                   (List.filter (fun x => negb (x.1 <=? now s1 + d)%Z) (timers s1))
                   (now s1 + d))
                l _ Hl) as (p' & Hl' & Hk & He & Hsig).
    exists p'. split_and!; done.
Qed.

Lemma X6_waiting_purge_removes_later_run_witness :
  let s := (stopDaemon "server" KillNoProcess stopped_server).2 in
  let s1 := (startDaemon "server" "node server.js" "/srv" (Spawned 4300) s).2 in
  runningProcesses s !! "server" = None
  /\ isDaemonRunning "server" (advance 1000 s1) = true
  /\ runningProcesses (advance 5000 s1) !! "server" = None.
Proof.
  intros s s1.
  assert (Hfree : runningProcesses s !! "server" = None) by (vm_compute; reflexivity).
  split_and!; [exact Hfree | vm_compute; reflexivity |].
  destruct (X6_waiting_purge_removes_later_run s "server" "node server.js" "/srv"
              4300 6000 5000 Hfree) as (l & _ & _ & Hgone & _).
  - vm_compute. by left.
  - vm_compute. discriminate.
  - exact Hgone.
Defined.

(** X7. After a [stopDaemon] whose [kill] returned, the name is free at
    once: a [startDaemon] under it spawns and records a new object in
    state [STARTING] with the new PID, and the object of the stopped run
    stays as [stopDaemon] left it. *)
Theorem X7_name_is_free_after_stop (s : Manager) (n command cwd : string) (p : Z)
  (l : loc) (running : RunningProcess) (o : KillOutcome) (b : bool)
  (child' : ChildProcess)
  (Hentry : get n s = Some (l, running))
  (Hkill : kill SIGTERM o (process running) = inr (b, child')) :
  let s' := (stopDaemon n o s).2 in
  let started := startDaemon n command cwd (Spawned p) s' in
  exists l',
    started.1 = Await l'
    /\ l' <> l
    /\ get n started.2
       = Some (l', mkRunning n (mkChild p false None None [] None None) p (now s)
                     STARTING createOutputBuffer)
    /\ store started.2 !! l = Some (with_process child' running).
Proof.
  intros s' started. subst started s'.
  assert (Hstop : (stopDaemon n o s).2
                  = with_map (delete n)
                      (with_store (<[l := with_process child' running]>) s)).
  { unfold stopDaemon. by rewrite Hentry, Hkill. }
  rewrite Hstop. set (s' := with_map _ _).
  assert (Hold : store s' !! l = Some (with_process child' running))
    by apply lookup_insert_eq.
  destruct (startDaemon_spawned s' n command cwd p (get_delete n _))
    as (l' & s1 & Hs & Hfresh & Hg & _ & _).
  rewrite Hs. cbn [fst snd]. exists l'.
  assert (Hne : l' <> l) by (intros ->; congruence).
  split_and!; [done | done | exact Hg |].
  assert (Hfree : get n s' = None) by apply get_delete.
  unfold startDaemon in Hs. rewrite Hfree in Hs. simplify_eq.
  cbn [store setTimeout]. by rewrite lookup_insert_ne.
Qed.

Lemma X7_name_is_free_after_stop_witness :
  exists l',
    (startDaemon "server" "node server.js" "/srv" (Spawned 4300)
       (stopDaemon "server" KillDelivered running_server).2).1 = Await l'
    /\ l' <> 0%nat.
Proof.
  destruct (X7_name_is_free_after_stop running_server "server" "node server.js"
              "/srv" 4300 0%nat
              (mkRunning "server"
                 (mkChild 4242 false None None [] (Some "server") (Some "server"))
                 4242 0 RUNNING createOutputBuffer)
              KillDelivered true
              (mkChild 4242 true None None [SIGTERM] (Some "server") (Some "server")))
    as (l' & Hs & Hne & _).
  - vm_compute. reflexivity.
  - reflexivity.
  - exists l'. split; [exact Hs | exact Hne].
Defined.

(** ** One daemon and the others *)

Lemma getProcessStatus_same (m : string) (s s' : Manager) :
  get m s' = get m s -> now s' = now s ->
  getProcessStatus m s' = getProcessStatus m s.
Proof. intros Hg Hn. unfold getProcessStatus. by rewrite Hg, Hn. Qed.

Lemma getProcessLogs_same (m : string) (k : Z) (s s' : Manager) :
  get m s' = get m s -> getProcessLogs m k s' = getProcessLogs m k s.
Proof. intros Hg. unfold getProcessLogs. by rewrite Hg. Qed.

Lemma startDaemon_other (s : Manager) (n m command cwd : string) (sp : SpawnOutcome) :
  Consistent s -> m <> n ->
  get m (startDaemon n command cwd sp s).2 = get m s
  /\ now (startDaemon n command cwd sp s).2 = now s.
Proof.
  intros (_ & Hm & _) Hne. unfold startDaemon.
  destruct (get n s) as [[l existing] |]; [done |].
  destruct sp as [err | p]; [done |]. split; [| done].
  unfold get. cbn [snd setTimeout runningProcesses store].
  rewrite lookup_insert_ne by done.
  destruct (runningProcesses s !! m) as [lm |] eqn:Hlm; [| done].
  destruct (Hm m lm Hlm) as (pm & Hpm & _).
  rewrite lookup_insert_ne; [done |].
  intros <-. pose proof (is_fresh (dom (store s))) as Hf.
  apply not_elem_of_dom in Hf. congruence.
Qed.

Lemma stopDaemon_other (s : Manager) (n m : string) (o : KillOutcome) :
  Consistent s -> m <> n ->
  get m (stopDaemon n o s).2 = get m s /\ now (stopDaemon n o s).2 = now s.
Proof.
  intros (_ & Hm & _) Hne. unfold stopDaemon.
  destruct (get n s) as [[l running] |] eqn:Hg; [| done].
  apply get_Some_inv in Hg as [Hn Hl].
  destruct (kill SIGTERM o (process running)) as [err | [b child']]; [done |].
  split; [| done].
  unfold get. cbn [snd with_map with_store runningProcesses store].
  rewrite lookup_delete_ne by done.
  destruct (runningProcesses s !! m) as [lm |] eqn:Hlm; [| done].
  rewrite lookup_insert_ne; [done |].
  intros <-. destruct (Hm m l Hlm) as (pm & Hpm & Hnm).
  destruct (Hm n l Hn) as (pn & Hpn & Hnn). congruence.
Qed.

(** X8. In a reachable manager, starting or stopping the daemon [n],
    whatever [spawn] and [kill] do, leaves the status and the logs of every
    other name as they were. *)
Theorem X8_start_and_stop_leave_other_names_alone (s : Manager) (n m : string)
  (Hreach : reachable s)
  (Hother : m <> n) :
  (forall command cwd sp k,
      let s' := (startDaemon n command cwd sp s).2 in
      getProcessStatus m s' = getProcessStatus m s
      /\ getProcessLogs m k s' = getProcessLogs m k s
      /\ isDaemonRunning m s' = isDaemonRunning m s)
  /\ (forall o k,
        let s' := (stopDaemon n o s).2 in
        getProcessStatus m s' = getProcessStatus m s
        /\ getProcessLogs m k s' = getProcessLogs m k s
        /\ isDaemonRunning m s' = isDaemonRunning m s).
Proof.
  pose proof (reachable_Consistent s Hreach) as HC. split.
  - intros command cwd sp k s'. subst s'.
    destruct (startDaemon_other s n m command cwd sp HC Hother) as [Hg Hn].
    split_and!.
    + by apply getProcessStatus_same.
    + by apply getProcessLogs_same.
    + unfold isDaemonRunning. by rewrite Hg.
  - intros o k s'. subst s'.
    destruct (stopDaemon_other s n m o HC Hother) as [Hg Hn].
    split_and!.
    + by apply getProcessStatus_same.
    + by apply getProcessLogs_same.
    + unfold isDaemonRunning. by rewrite Hg.
Qed.

Lemma X8_start_and_stop_leave_other_names_alone_witness :
  getProcessLogs "server" 50
    (startDaemon "worker" "node worker.js" "/srv" (Spawned 4400) logging_server).2
  = Some ([], ["boom"; "bang"])
  /\ isDaemonRunning "server" (stopDaemon "worker" KillDelivered logging_server).2
     = true.
Proof.
  assert (Hne : "server" <> "worker") by discriminate.
  destruct (X8_start_and_stop_leave_other_names_alone logging_server "worker" "server"
              logging_server_reachable Hne) as [Hstart Hstop].
  split.
  - destruct (Hstart "node worker.js" "/srv" (Spawned 4400) 50) as (_ & Hlogs & _).
    etrans; [exact Hlogs |]. vm_compute. reflexivity.
  - destruct (Hstop KillDelivered 50) as (_ & _ & Hrun).
    etrans; [exact Hrun |]. vm_compute. reflexivity.
Defined.

(** ** A child that a signal ends inside the liveness window *)

(** X9. [startDaemon] samples [child.killed] and [child.exitCode] only.
    When the child is ended by a signal before the ['exit'] listener is
    registered, Node records a [null] exit code and the signal; the resumed
    [startDaemon] then reports success, the entry becomes [RUNNING], and no
    removal is scheduled. *)
Theorem X9_signal_death_in_window_counts_as_started (s : Manager) (n sig : string)
  (l : loc) (p : RunningProcess)
  (Hobj : store s !! l = Some p)
  (Hnotkilled : killed (process p) = false)
  (Hnolistener : exit_listener (process p) = None) :
  let s1 := childExit l None (Some sig) s in
  exists p1 p2,
    store s1 !! l = Some p1
    /\ signalCode (process p1) = Some sig
    /\ exitCode (process p1) = None
    /\ timers s1 = timers s
    /\ startDaemon_resume n l s1
       = Some ({| success := true;
                  message := "Started daemon '" +:+ n +:+ "' (PID: "
                             +:+ pretty (child_pid (process p)) +:+ ")" |},
               with_store (<[l := p2]>) s1)
    /\ state p2 = RUNNING
    /\ signalCode (process p2) = Some sig.
Proof.
  intros s1. subst s1. unfold childExit. rewrite Hobj, Hnolistener.
  set (p1 := with_process _ p). set (s1 := with_store _ s).
  assert (Hl1 : store s1 !! l = Some p1) by apply lookup_insert_eq.
  exists p1. eexists. split_and!; [done | done | done | done | | |].
  - unfold startDaemon_resume. rewrite Hl1.
    cbn [p1 with_process process killed exitCode]. rewrite Hnotkilled.
    rewrite bool_decide_eq_false_2 by (by intros H; apply H).
    reflexivity.
  - done.
  - done.
Qed.

Lemma X9_signal_death_in_window_counts_as_started_witness :
  exists r s',
    startDaemon_resume "server" 0%nat
      (childExit 0%nat None (Some "SIGSEGV") started_server) = Some (r, s')
    /\ success r = true.
Proof.
  destruct (X9_signal_death_in_window_counts_as_started started_server "server"
              "SIGSEGV" 0%nat
              (mkRunning "server" (mkChild 4242 false None None [] None None)
                 4242 0 STARTING createOutputBuffer))
    as (p1 & p2 & _ & _ & _ & _ & Hr & _).
  - vm_compute. reflexivity.
  - reflexivity.
  - reflexivity.
  - eexists _, _. split; [exact Hr | reflexivity].
Defined.

(** ** The error listener *)

Lemma addToBuffer_last (buffer : list string) (line : string) (cap : nat) :
  (1 <= cap)%nat -> last (addToBuffer buffer line cap) = Some line.
Proof.
  intros Hcap. unfold addToBuffer. rewrite length_app. simpl.
  destruct (Nat.ltb_spec cap (length buffer + 1)) as [Hgt | Hle].
  - destruct buffer as [| x buffer]; simpl in *; [lia |]. apply last_snoc.
  - apply last_snoc.
Qed.

(** X10. An ['error'] on a child whose name has an entry sets the entry to
    [FAILED], leaves the standard output alone, puts the error's message
    behind [Error: ] as the newest line of the standard error, and
    schedules the removal of the name 5000 ms later. For a name without an
    entry it changes neither the map nor the objects, and schedules the
    removal all the same. *)
Theorem X10_error_listener (s : Manager) (n errMessage : string) :
  (forall l proc,
      get n s = Some (l, proc) ->
      (1 <= maxLines (outputBuffer proc))%nat ->
      let s' := errorHandler n errMessage s in
      exists proc',
        get n s' = Some (l, proc')
        /\ state proc' = FAILED
        /\ stdout (outputBuffer proc') = stdout (outputBuffer proc)
        /\ last (stderr (outputBuffer proc')) = Some ("Error: " +:+ errMessage)
        /\ (length (stderr (outputBuffer proc'))
            <= Nat.max (length (stderr (outputBuffer proc)))
                       (maxLines (outputBuffer proc)))%nat
        /\ timers s' = schedule (now s + 5000) (Purge n) (timers s))
  /\ (runningProcesses s !! n = None ->
      errorHandler n errMessage s = setTimeout (Purge n) 5000 s
      /\ In (now s + 5000, Purge n) (timers (errorHandler n errMessage s))).
Proof.
  split.
  - intros l proc Hentry Hcap s'. subst s'.
    pose proof (get_Some_inv _ _ _ _ Hentry) as [Hn Hl].
    unfold errorHandler. rewrite Hentry.
    eexists. split_and!.
    + rewrite get_setTimeout. by apply get_overwrite.
    + done.
    + done.
    + simpl. by apply addToBuffer_last.
    + simpl. unfold addToBuffer. rewrite length_app. simpl.
      destruct (Nat.ltb_spec (maxLines (outputBuffer proc))
                  (length (stderr (outputBuffer proc)) + 1)).
      * rewrite tail_drop, length_drop, length_app. simpl. lia.
      * rewrite length_app. simpl. lia.
    + done.
  - intros Habs. unfold errorHandler. rewrite (get_None n s Habs).
    split; [done |]. simpl. apply in_schedule.
Qed.

Lemma X10_error_listener_witness :
  exists proc',
    get "server" (errorHandler "server" "kill EPERM" logging_server)
    = Some (0%nat, proc')
    /\ state proc' = FAILED
    /\ stderr (outputBuffer proc') = ["boom"; "bang"; "Error: kill EPERM"].
Proof.
  destruct (proj1 (X10_error_listener logging_server "server" "kill EPERM") 0%nat
              (mkRunning "server"
                 (mkChild 4242 false None None [] (Some "server") (Some "server"))
                 4242 0 RUNNING (mkBuffer [] ["boom"; "bang"] 1000)))
    as (proc' & Hg & Hst & _).
  - vm_compute. reflexivity.
  - simpl. lia.
  - exists proc'. split; [exact Hg |]. split; [exact Hst |].
    assert (Hv : get "server" (errorHandler "server" "kill EPERM" logging_server)
                 = Some (0%nat,
                         mkRunning "server"
                           (mkChild 4242 false None None [] (Some "server")
                              (Some "server"))
                           4242 0 FAILED
                           (mkBuffer [] ["boom"; "bang"; "Error: kill EPERM"] 1000)))
      by (vm_compute; reflexivity).
    rewrite Hv in Hg. by simplify_eq.
Defined.

(** ** Line counts that are not positive *)

(** X11. Asked for [-k] lines with [k] at least 0, [getProcessLogs] gives
    each buffer without its first [k] lines, so for 0 the whole of both
    buffers: [slice] takes the count as a position from the front. *)
Theorem X11_logs_with_count_not_positive (s : Manager) (n : string) (l : loc)
  (proc : RunningProcess) (k : Z)
  (Hentry : get n s = Some (l, proc))
  (Hk : 0 <= k) :
  getProcessLogs n (- k) s
  = Some (drop (Z.to_nat k) (stdout (outputBuffer proc)),
          drop (Z.to_nat k) (stderr (outputBuffer proc))).
Proof.
  unfold getProcessLogs. rewrite Hentry. rewrite Z.opp_involutive.
  assert (Hslice : forall xs : list string, JS.slice k xs = drop (Z.to_nat k) xs).
  { intros xs. unfold JS.slice.
    destruct (Z.ltb_spec k 0) as [Hlt | _]; [lia |].
    destruct (Z.le_gt_cases k (Z.of_nat (length xs))) as [Hle | Hgt].
    - by rewrite Z.min_l.
    - rewrite Z.min_r by lia. rewrite Nat2Z.id.
      rewrite !drop_ge; [done | lia | lia]. }
  by rewrite !Hslice.
Qed.

Lemma X11_logs_with_count_not_positive_witness :
  (0 <= 1)
  /\ getProcessLogs "server" (-1) logging_server = Some ([], ["bang"]).
Proof.
  assert (Hk : 0 <= 1) by lia. split; [exact Hk |].
  refine (X11_logs_with_count_not_positive logging_server "server" 0%nat
            (mkRunning "server"
               (mkChild 4242 false None None [] (Some "server") (Some "server"))
               4242 0 RUNNING (mkBuffer [] ["boom"; "bang"] 1000)) 1 _ Hk).
  vm_compute. reflexivity.
Defined.

(** ** The dispatcher on names that hold the suffix once *)

Lemma string_app_assoc (a b c : string) : (a +:+ b) +:+ c = a +:+ (b +:+ c).
Proof.
  induction a as [| x a IH]; [done |].
  change (String x ((a +:+ b) +:+ c) = String x (a +:+ (b +:+ c))). by rewrite IH.
Qed.

Lemma rev_app_spec (v acc : string) : String.rev_app v acc = String.rev v +:+ acc.
Proof.
  revert acc. induction v as [| x v IH]; intros acc; [done |].
  unfold String.rev. simpl. rewrite (IH (String x acc)), (IH (String x "")).
  by rewrite string_app_assoc.
Qed.

Lemma rev_app_append (a b acc : string) :
  String.rev_app (a +:+ b) acc = String.rev_app b (String.rev_app a acc).
Proof.
  revert acc. induction a as [| x a IH]; intros acc; [done |].
  change (String x a +:+ b) with (String x (a +:+ b)). simpl. apply IH.
Qed.

Lemma rev_append (a b : string) :
  String.rev (a +:+ b) = String.rev b +:+ String.rev a.
Proof.
  unfold String.rev at 1. rewrite rev_app_append. apply rev_app_spec.
Qed.

Lemma prefix_append (v w : string) : String.prefix v (v +:+ w) = true.
Proof.
  induction v as [| x v IH]; [by destruct w |].
  change (String x v +:+ w) with (String x (v +:+ w)). simpl.
  destruct (Ascii.ascii_dec x x); [done | congruence].
Qed.

Lemma endsWith_inv (v suffix : string) :
  JS.endsWith v suffix = true -> exists pre, v = pre +:+ suffix.
Proof.
  induction v as [| x v IH]; cbn [JS.endsWith].
  - destruct (String.eqb_spec "" suffix) as [<- | _]; [by exists "" | done].
  - destruct (String.eqb_spec (String x v) suffix) as [<- | _]; [by exists "" |].
    intros H. destruct (IH H) as [pre ->]. by exists (String x pre).
Qed.

Lemma endsWith_append (base suffix : string) :
  JS.endsWith (base +:+ suffix) suffix = true.
Proof.
  induction base as [| x base IH].
  - change ("" +:+ suffix) with suffix.
    destruct suffix; cbn [JS.endsWith]; by rewrite String.eqb_refl.
  - change (String x base +:+ suffix) with (String x (base +:+ suffix)).
    cbn [JS.endsWith]. by destruct (String.eqb _ suffix).
Qed.

(** A name that ends in one suffix does not end in another whose reversal
    differs from the reversal of the first early on. *)
Lemma endsWith_other (base x suffix : string) :
  (forall r, String.prefix (String.rev suffix) (String.rev x +:+ r) = false) ->
  JS.endsWith (base +:+ x) suffix = false.
Proof.
  intros Hdiff. destruct (JS.endsWith (base +:+ x) suffix) eqn:He; [| done].
  apply endsWith_inv in He as [pre Heq].
  pose proof (prefix_append (String.rev suffix) (String.rev pre)) as Hp.
  rewrite <- rev_append, <- Heq, rev_append, Hdiff in Hp. done.
Qed.

(** X12. For a tool name [<name><suffix>] in which the suffix occurs only
    at the end, and a call without configuration: [<name>_status] gives the
    status of the daemon [<name>], [<name>_stop] stops it, and
    [<name>_logs] gives its logs with the count from [args] or 50. A
    [<name>_start] without configuration is turned down for want of one.
    With the configuration of a daemon, [<name>_start] starts the daemon
    under [<name>], whatever name the configuration carries. *)
Theorem X12_dispatch_on_plain_names (projectRoot base : string)
  (args : option Args) (host : Host) (s : Manager) :
  (occursOnlyAtEnd base "_status" ->
   executeTool projectRoot None (base +:+ "_status") args host s
   = (Return (ToolExecutor.getProcessStatus (toISOString host) base s), s))
  /\ (occursOnlyAtEnd base "_stop" ->
      executeTool projectRoot None (base +:+ "_stop") args host s
      = (Return (ofManagerResult (stopDaemon base (killing host) s).1),
         (stopDaemon base (killing host) s).2))
  /\ (occursOnlyAtEnd base "_logs" ->
      executeTool projectRoot None (base +:+ "_logs") args host s
      = (Return (ToolExecutor.getProcessLogs base (linesOrDefault args) s), s))
  /\ executeTool projectRoot None (base +:+ "_start") args host s
     = (Return (ToolExecutor.mkResult false
                  ("Configuration not found for tool: " +:+ (base +:+ "_start"))),
        s)
  /\ (forall cfg : ToolConfig,
        occursOnlyAtEnd base "_start" ->
        daemon cfg = Some true ->
        executeTool projectRoot (Some cfg) (base +:+ "_start") args host s
        = match startDaemon base (command cfg) projectRoot (spawn host) s with
          | (Return result, s') => (Return (ofManagerResult result), s')
          | (Await l, s') => (Await l, s')
          end).
Proof.
  split_and!.
  - intros Honce. unfold executeTool.
    rewrite (endsWith_other base "_status" "_start") by (intros r; reflexivity).
    rewrite endsWith_append. by rewrite (replace_trailing base "_status" Honce).
  - intros Honce. unfold executeTool.
    rewrite (endsWith_other base "_stop" "_start") by (intros r; reflexivity).
    rewrite (endsWith_other base "_stop" "_status") by (intros r; reflexivity).
    rewrite endsWith_append. rewrite (replace_trailing base "_stop" Honce).
    by destruct (stopDaemon base (killing host) s).
  - intros Honce. unfold executeTool.
    rewrite (endsWith_other base "_logs" "_start") by (intros r; reflexivity).
    rewrite (endsWith_other base "_logs" "_status") by (intros r; reflexivity).
    rewrite (endsWith_other base "_logs" "_stop") by (intros r; reflexivity).
    rewrite endsWith_append. by rewrite (replace_trailing base "_logs" Honce).
  - unfold executeTool. by rewrite endsWith_append.
  - intros cfg Honce Hd. unfold executeTool. rewrite Hd. cbn [default].
    rewrite endsWith_append. by rewrite (replace_trailing base "_start" Honce).
Qed.

Lemma X12_dispatch_on_plain_names_witness :
  (executeTool "/srv" None "server_stop" None
     (ToolExecutor.mkHost (Spawned 1) KillDelivered (ExecResolves "" "") (fun _ => ""))
     running_server).1
  = Return (ToolExecutor.mkResult true "Stopped daemon 'server' (PID: 4242)").
Proof.
  destruct (X12_dispatch_on_plain_names "/srv" "server" None
              (ToolExecutor.mkHost (Spawned 1) KillDelivered (ExecResolves "" "")
                 (fun _ => ""))
              running_server) as (_ & Hstop & _).
  change "server_stop" with ("server" +:+ "_stop"). rewrite Hstop.
  - vm_compute. reflexivity.
  - intros i Hi. do 6 (destruct i as [| i]; [reflexivity |]). simpl in Hi. lia.
Defined.

(** ** What comes back to the caller *)

Lemma app_nonempty_l (a b : string) : a <> "" -> a +:+ b <> "".
Proof. destruct a; [done | discriminate]. Qed.

Lemma or_else_nonempty_r (a b : string) : b <> "" -> JS.or_else a b <> "".
Proof.
  intros Hb. unfold JS.or_else. destruct (JS.truthy a) eqn:Ha; [| done].
  by apply truthy_true.
Qed.

Lemma runCommand_output_nonempty (command : string) (o : ExecOutcome)
  (r : ToolExecutor.Result) :
  runCommand command o = Returns r -> output r <> "".
Proof.
  destruct o as [out err | e]; cbn [runCommand].
  - intros ?; simplify_eq. simpl. apply or_else_nonempty_r. discriminate.
  - destruct (Logger.call "warning"); intros ?; simplify_eq.
    unfold failureResult. cbn [output]. apply or_else_nonempty_r. discriminate.
Qed.

Lemma ofManagerResult_start_nonempty (n command cwd : string) (sp : SpawnOutcome)
  (s s' : Manager) (r : ProcessManager.Result) :
  startDaemon n command cwd sp s = (Return r, s') -> message r <> "".
Proof.
  unfold startDaemon. destruct (get n s) as [[l existing] |].
  - intros ?; simplify_eq. discriminate.
  - destruct sp; intros ?; simplify_eq. discriminate.
Qed.

(** X13. Whatever the tool, its arguments, the state of the manager and the
    host do, a result that [executeTool] returns, at once or after the
    liveness window, carries a text that is not empty, also when
    [runCommand] has thrown; and so does every result that [runCommand]
    returns. *)
Theorem X13_results_carry_a_text (projectRoot toolName : string)
  (toolConfig : option ToolConfig) (args : option Args) (host : Host)
  (s : Manager) :
  (forall r s',
      executeTool projectRoot toolConfig toolName args host s = (Return r, s') ->
      output r <> "")
  /\ (forall l r s',
        executeTool_resume toolName l s = Some (r, s') -> output r <> "")
  /\ (forall command o r, runCommand command o = Returns r -> output r <> "").
Proof.
  split_and!.
  - intros r s'. unfold executeTool. destruct toolConfig as [cfg |].
    + destruct (default false (daemon cfg)).
      * destruct (startDaemon _ _ _ _ s) as [[r0 | l] s0] eqn:Hs; intros ?; simplify_eq.
        simpl. by eapply ofManagerResult_start_nonempty.
      * destruct (runCommand _ _) as [r0 | msg] eqn:Hrun; intros ?; simplify_eq.
        -- by eapply runCommand_output_nonempty.
        -- discriminate.
    + destruct (JS.endsWith toolName "_start"); [intros ?; simplify_eq; discriminate |].
      destruct (JS.endsWith toolName "_status").
      { intros ?; simplify_eq. unfold ToolExecutor.getProcessStatus.
        destruct (getProcessStatus _ _) as [st |]; [| discriminate].
        simpl. destruct (0 <? length (recentOutput st))%nat; discriminate. }
      destruct (JS.endsWith toolName "_stop").
      { unfold stopDaemon. destruct (get _ s) as [[l running] |].
        - destruct (kill SIGTERM (killing host) (process running)) as [err | [b c']];
            intros ?; simplify_eq; discriminate.
        - intros ?; simplify_eq. discriminate. }
      destruct (JS.endsWith toolName "_logs"); [| intros ?; simplify_eq; discriminate].
      intros ?; simplify_eq. unfold ToolExecutor.getProcessLogs.
      destruct (getProcessLogs _ _ _) as [[out err] |]; [| discriminate].
      simpl. destruct (0 <? length out)%nat, (0 <? length err)%nat,
               ((length out =? 0)%nat && (length err =? 0)%nat); discriminate.
  - intros l r s'. unfold executeTool_resume, startDaemon_resume.
    destruct (store s !! l) as [p |]; [| done].
    destruct (killed (process p) || bool_decide _); intros ?; simplify_eq; discriminate.
  - intros command o r. apply runCommand_output_nonempty.
Qed.

Lemma X13_results_carry_a_text_witness :
  output (ToolExecutor.mkResult false
            "Error executing tool: logger.warning is not a function") <> "".
Proof.
  destruct (X13_results_carry_a_text "/srv" "fail"
              (Some (mkToolConfig "fail" "a command that fails" "exit 3" (Some false)))
              None
              (ToolExecutor.mkHost (Spawned 1) KillDelivered
                 (ExecRejects (mkExecError "Command failed: exit 3" (Some "")
                                 (Some "") (CodeNumber 3)))
                 (fun _ => ""))
              (init 0)) as (Hret & _).
  apply (Hret _ (init 0)). vm_compute. reflexivity.
Defined.

(** ** The command line *)

(** X14. [main] starts the server only when its first argument begins with
    [@], the file it names exists and its content parses as JSON; the
    server script is [server.js] beside the launcher, and the environment
    is that of the launcher with [MCP_CONFIG_PATH] set to the resolved path
    (the argument without [@] if absolute, else resolved against the
    working directory) and [MCP_PROJECT_ROOT] set to the working directory.
    When these three hold it does start the server, whatever arguments
    follow the first. In every other case it ends with status 1 after
    writing at least one line to the standard error. *)
Theorem X14_main_starts_the_server_only_with_a_valid_file (host : Cli.Host)
  (args : list string) :
  let resolved configArg :=
    if Cli.isAbsolute host (JS.skip 1 configArg) then JS.skip 1 configArg
    else Cli.resolve host (Cli.cwd host) (JS.skip 1 configArg) in
  (forall serverPath env,
      Cli.main host args = Cli.Launch serverPath env ->
      exists configArg rest,
        args = configArg :: rest
        /\ String.prefix "@" configArg = true
        /\ Cli.existsSync host (resolved configArg) = true
        /\ Cli.readAndParse host (resolved configArg) = None
        /\ serverPath = Cli.resolve host (Cli.dirname host) "server.js"
        /\ env !! "MCP_CONFIG_PATH" = Some (resolved configArg)
        /\ env !! "MCP_PROJECT_ROOT" = Some (Cli.cwd host)
        /\ (forall k, k <> "MCP_CONFIG_PATH" -> k <> "MCP_PROJECT_ROOT" ->
                      env !! k = Cli.environ host !! k))
  /\ (forall configArg rest,
        args = configArg :: rest ->
        String.prefix "@" configArg = true ->
        Cli.existsSync host (resolved configArg) = true ->
        Cli.readAndParse host (resolved configArg) = None ->
        exists serverPath env, Cli.main host args = Cli.Launch serverPath env)
  /\ (forall code errors,
        Cli.main host args = Cli.Exit code errors -> code = 1 /\ errors <> []).
Proof.
  intros resolved. split_and!.
  - intros serverPath env. unfold Cli.main.
    destruct args as [| configArg rest]; [done |].
    destruct (String.prefix "@" configArg) eqn:Hat; [| done]. cbn [negb].
    fold (resolved configArg).
    destruct (Cli.existsSync host (resolved configArg)) eqn:Hex; [| done]. cbn [negb].
    destruct (Cli.readAndParse host (resolved configArg)) eqn:Hparse; [done |].
    intros ?; simplify_eq. exists configArg, rest. split_and!; try done.
    + rewrite lookup_insert_ne by done. apply lookup_insert_eq.
    + apply lookup_insert_eq.
    + intros k Hk1 Hk2. by rewrite !lookup_insert_ne.
  - intros configArg rest -> Hat Hex Hparse. unfold Cli.main.
    rewrite Hat. cbn [negb]. fold (resolved configArg).
    rewrite Hex. cbn [negb]. rewrite Hparse. by eexists _, _.
  - intros code errors. unfold Cli.main.
    destruct args as [| configArg rest]; [by intros ?; simplify_eq |].
    destruct (String.prefix "@" configArg); cbn [negb];
      [| by intros ?; simplify_eq].
    fold (resolved configArg).
    destruct (Cli.existsSync host (resolved configArg)); cbn [negb];
      [| by intros ?; simplify_eq].
    destruct (Cli.readAndParse host (resolved configArg)); [| done].
    by intros ?; simplify_eq.
Qed.

Lemma X14_main_starts_the_server_only_with_a_valid_file_witness :
  let host := Cli.mkHost "/work" "/opt/mcp/dist"
                (fun path => String.prefix "/" path)
                (fun dir path => dir +:+ "/" +:+ path)
                (fun path => String.eqb path "/work/config.json")
                (fun _ => None) ∅ in
  exists env,
    Cli.main host ["@config.json"; "--verbose"]
    = Cli.Launch "/opt/mcp/dist/server.js" env
    /\ env !! "MCP_CONFIG_PATH" = Some "/work/config.json".
Proof.
  intros host.
  destruct (X14_main_starts_the_server_only_with_a_valid_file host
              ["@config.json"; "--verbose"]) as (Honly & Hif & _).
  destruct (Hif "@config.json" ["--verbose"]) as (serverPath & env & Hmain);
    [reflexivity | reflexivity | reflexivity | reflexivity |].
  destruct (Honly serverPath env Hmain)
    as (configArg & rest & Hargs & _ & _ & _ & Hpath & Hcfg & _).
  simplify_eq. exists env. split; [exact Hmain | exact Hcfg].
Defined.

(** ** Stopping inside the liveness window *)

(** X15. If a daemon is stopped, with the signal delivered, while its
    [startDaemon] still waits, the resumed [startDaemon] finds
    [child.killed] set: it returns a failure with the captured standard
    error (or [Process exited immediately]) and the name stays out of the
    map. *)
Theorem X15_stop_inside_window_fails_the_start (s : Manager) (n : string) (l : loc)
  (running : RunningProcess)
  (Hentry : get n s = Some (l, running)) :
  let s' := (stopDaemon n KillDelivered s).2 in
  exists r s'',
    startDaemon_resume n l s' = Some (r, s'')
    /\ success r = false
    /\ message r
       = "Error: Daemon failed to start:" +:+ JS.nl
         +:+ JS.or_else (JS.join JS.nl (stderr (outputBuffer running)))
               "Process exited immediately"
    /\ runningProcesses s'' !! n = None
    /\ getProcessStatus n s'' = None.
Proof.
  intros s'. subst s'. unfold stopDaemon. rewrite Hentry. cbn [kill snd].
  set (s' := with_map _ _).
  unfold startDaemon_resume.
  assert (Hl : store s' !! l = Some (with_process
                 (mkChild (child_pid (process running)) true
                    (exitCode (process running)) (signalCode (process running))
                    (signals (process running) ++ [SIGTERM])
                    (exit_listener (process running))
                    (error_listener (process running))) running))
    by apply lookup_insert_eq.
  rewrite Hl. cbn [with_process process killed orb].
  eexists _, _. split; [reflexivity |]. split_and!; try done.
  - simpl. apply lookup_delete_eq.
  - apply getProcessStatus_None, get_delete.
Qed.

Lemma X15_stop_inside_window_fails_the_start_witness :
  exists r s'',
    startDaemon_resume "server" 0%nat
      (stopDaemon "server" KillDelivered started_server).2 = Some (r, s'')
    /\ message r = "Error: Daemon failed to start:" +:+ JS.nl
                   +:+ "Process exited immediately".
Proof.
  destruct (X15_stop_inside_window_fails_the_start started_server "server" 0%nat
              (mkRunning "server" (mkChild 4242 false None None [] None None)
                 4242 0 STARTING createOutputBuffer))
    as (r & s'' & Hr & _ & Hm & _).
  - vm_compute. reflexivity.
  - exists r, s''. split; [exact Hr |]. rewrite Hm. vm_compute. reflexivity.
Defined.

(** ** Output and logs *)

(** X16. After a chunk arrives on one stream of a daemon whose buffer is
    within its capacity, [getProcessLogs] with a count of at least one
    gives, for that stream, the newest lines of the buffer followed by the
    lines of the chunk, cut to the capacity and then to the count; the
    other stream reads as before. *)
Theorem X16_logs_after_output (s : Manager) (n data : string) (l : loc)
  (proc : RunningProcess) (k : Z)
  (Hentry : get n s = Some (l, proc))
  (Hk : 1 <= k) :
  let b := outputBuffer proc in
  let newest (xs : list string) := drop (length xs - Z.to_nat k) xs in
  let kept (xs : list string) := drop (length xs - maxLines b) xs in
  ((length (stdout b) <= maxLines b)%nat ->
   getProcessLogs n k (dataHandler Stdout l data s)
   = Some (newest (kept (stdout b ++ dataLines data)), newest (stderr b)))
  /\ ((length (stderr b) <= maxLines b)%nat ->
      getProcessLogs n k (dataHandler Stderr l data s)
      = Some (newest (stdout b), newest (kept (stderr b ++ dataLines data)))).
Proof.
  intros b newest kept.
  pose proof (get_Some_inv _ _ _ _ Hentry) as [Hn Hl].
  split; intros Hcap; unfold dataHandler; rewrite Hl; unfold getProcessLogs;
    rewrite (get_overwrite s n l _ Hn); cbn [with_buffer outputBuffer stdout stderr];
    rewrite !slice_last by done; rewrite pushAll_drop by done; reflexivity.
Qed.

Lemma X16_logs_after_output_witness :
  getProcessLogs "server" 2
    (dataHandler Stderr 0%nat ("crash" +:+ JS.nl) logging_server)
  = Some ([], ["bang"; "crash"]).
Proof.
  destruct (X16_logs_after_output logging_server "server" ("crash" +:+ JS.nl) 0%nat
              (mkRunning "server"
                 (mkChild 4242 false None None [] (Some "server") (Some "server"))
                 4242 0 RUNNING (mkBuffer [] ["boom"; "bang"] 1000)) 2)
    as (_ & Herr).
  - vm_compute. reflexivity.
  - lia.
  - etrans; [apply Herr; simpl; lia |]. vm_compute. reflexivity.
Defined.
